(** * ScienceSourceIngest: the annotation graph of sciencesource.go

    A shallow embedding of [sciencesource.go]: the three record kinds with
    their struct tags, the tag registry ([getValuesForTags]), the label
    resolver ([GetPropertyAndItemConfigurationFromServer]), the article
    upload ([UploadPaper]) and the persistence pair ([Save],
    [LoadScienceSourceArticle]).

    Conventions of the embedding.
    - A Go [string] is a sequence of bytes: Rocq's [string] (a list of
      8-bit [ascii]).  A Go [int] is a [Z] in the 64-bit signed range
      ([int_ok]); the code does no arithmetic on it.
    - A Go [error] is represented by its message; [option error] is the
      returned [error] value, [None] being [nil].
    - A Go map is a [gmap]; a slice is [option (list _)], [None] being the
      [nil] slice.
    - A function that receives a pointer returns the final value of the
      object pointed to next to its own results. *)

From Stdlib Require Import ZArith String Ascii List.
From stdpp Require Import gmap strings list fin_maps.

Set Warnings "-register-all".

Open Scope string_scope.
Open Scope Z_scope.
Open Scope list_scope.

(** ** Basic types *)

Definition error := string.

Definition ItemType := string.

(** The range of Go's [int] on the 64-bit platforms the program targets. *)
Definition int_ok (z : Z) : bool := (-(2 ^ 63) <=? z) && (z <? 2 ^ 63).

(** ** The three record kinds (sciencesource.go, lines 29-105) *)

Module Annotation.
Record t := mk {
  Item : ItemType;
  TermFound : string;
  LengthOfTermFound : Z;
  WikiDataItemCode : string;
  DictionaryName : string;
  TimeCode : string;
  InstanceOf : string;
  ScienceSourceItemID : string
}.
End Annotation.

Module AnchorPoint.
Record t := mk {
  Item : ItemType;
  PrecedingPhrase : string;
  FollowingPhrase : string;
  DistanceToPreceding : Z;
  DistanceToFollowing : Z;
  CharacterNumber : Z;
  TimeCode : string;
  InstanceOf : string;
  ScienceSourceArticleTitle : string;
  AnchorPoint : string;
  PrecedingAnchorPoint : string;
  FollowingAnchorPoint : string;
  Anchors : string;
  ScienceSourceItemID : string;
  Annotation : Annotation.t
}.
End AnchorPoint.

Module Article.
Record t := mk {
  Item : ItemType;
  WikiDataItemCode : string;
  ArticleTextTitle : string;
  PublicationDate : string;
  TimeCode : string;
  CharacterNumber : Z;
  PrecedingPhrase : string;
  FollowingPhrase : string;
  InstanceOf : string;
  ScienceSourceArticleTitle : string;
  PageID : Z;
  FollowingAnchorPoint : string;
  Annotations : option (list AnchorPoint.t)
}.
End Article.

Abbreviation ScienceSourceAnnotation := Annotation.t.
Abbreviation ScienceSourceAnchorPoint := AnchorPoint.t.
Abbreviation ScienceSourceArticle := Article.t.

(** ** Struct tags, as [reflect] shows them

    [reflect.TypeOf(T{})] is the list of the fields of [T] in declaration
    order; a field carries its name and its tag, a list of [key:"value"]
    pairs.  [Tag_Get] is [reflect.StructTag.Get]: the value of the first
    pair with that key, the empty string when there is none. *)

Record StructField := { Name : string; Tag : list (string * string) }.

Fixpoint Tag_Get (tag : list (string * string)) (key : string) : string :=
  match tag with
  | [] => ""
  | (k, v) :: rest => if String.eqb k key then v else Tag_Get rest key
  end.

Definition field (name : string) (tag : list (string * string)) : StructField :=
  {| Name := name; Tag := tag |}.

Definition TypeOf_ScienceSourceAnnotation : list StructField :=
  [ field "Item" [("item", "annotation")];
    field "TermFound" [("json", "term"); ("property", "term found")];
    field "LengthOfTermFound" [("json", "length"); ("property", "length of term found")];
    field "WikiDataItemCode" [("json", "wikidata"); ("property", "Wikidata item code")];
    field "DictionaryName" [("json", "dictionary"); ("property", "dictionary name")];
    field "TimeCode" [("json", "time"); ("property", "time code1")];
    field "InstanceOf" [("json", "instance_of"); ("property", "instance of")];
    field "ScienceSourceItemID" [("json", "id")] ].

Definition TypeOf_ScienceSourceAnchorPoint : list StructField :=
  [ field "Item" [("item", "anchor point")];
    field "PrecedingPhrase" [("json", "preceding_phrase"); ("property", "preceding phrase")];
    field "FollowingPhrase" [("json", "following_phrase"); ("property", "following phrase")];
    field "DistanceToPreceding" [("json", "preceding_distance"); ("property", "distance to preceding")];
    field "DistanceToFollowing" [("json", "following_distance"); ("property", "distance to following")];
    field "CharacterNumber" [("json", "character"); ("property", "character number")];
    field "TimeCode" [("json", "time"); ("property", "time code1")];
    field "InstanceOf" [("json", "instance_of"); ("property", "instance of")];
    field "ScienceSourceArticleTitle"
      [("json", "science_source_title"); ("property", "ScienceSource article title")];
    field "AnchorPoint" [("json", "point"); ("property", "anchor point in")];
    field "PrecedingAnchorPoint" [("json", "preceding_anchor"); ("property", "preceding anchor point")];
    field "FollowingAnchorPoint" [("json", "following_anchor"); ("property", "following anchor point")];
    field "Anchors" [("json", "anchors"); ("property", "anchors")];
    field "ScienceSourceItemID" [("json", "id")];
    field "Annotation" [("json", "annotation")] ].

Definition TypeOf_ScienceSourceArticle : list StructField :=
  [ field "Item" [("item", "article")];
    field "WikiDataItemCode" [("json", "wikidata"); ("property", "Wikidata item code")];
    field "ArticleTextTitle" [("json", "title"); ("property", "article text title")];
    field "PublicationDate" [("json", "publication_date"); ("property", "publication date")];
    field "TimeCode" [("json", "time"); ("property", "time code1")];
    field "CharacterNumber" [("json", "character"); ("property", "character number")];
    field "PrecedingPhrase" [("json", "preceding_phrase"); ("property", "preceding phrase")];
    field "FollowingPhrase" [("json", "following_phrase"); ("property", "following phrase")];
    field "InstanceOf" [("json", "instance_of"); ("property", "instance of")];
    field "ScienceSourceArticleTitle"
      [("json", "science_source_title"); ("property", "ScienceSource article title")];
    field "PageID" [("json", "page_id"); ("property", "page ID")];
    field "FollowingAnchorPoint" [("json", "following_anchor"); ("property", "following anchor point")];
    field "Annotations" [("json", "annotations")] ].

(** ** The tag registry: [getValuesForTags] (lines 167-192)

    [tagset_of_field] is the body of the inner loop, [tagset_of_types] the
    two nested loops starting from the empty [tagset].  The final loop
    ranges over the map; Go leaves the order of that iteration
    unspecified, so the order is an input of the model ([range_keys], with
    [range_keys_perm] saying it enumerates exactly the keys). *)

Definition tagset_of_field (tagname : string) (tagset : gmap string bool)
    (f : StructField) : gmap string bool :=
  let tag := Tag_Get (Tag f) tagname in
  if (0 <? String.length tag)%nat then <[tag := true]> tagset else tagset.

Definition tagset_of_types (tagname : string) (types : list (list StructField))
    : gmap string bool :=
  foldl (fun tagset t => foldl (tagset_of_field tagname) tagset t) ∅ types.

Definition schema_types : list (list StructField) :=
  [ TypeOf_ScienceSourceAnnotation;
    TypeOf_ScienceSourceAnchorPoint;
    TypeOf_ScienceSourceArticle ].

Definition map_keys (m : gmap string bool) : list string := (map_to_list m).*1.

(** ** UTF-8, as package [unicode/utf8] decodes it

    [rune_width s] is the width that [utf8.DecodeRuneInString] reports for
    the first rune of [s], with [0] standing for the result
    [(RuneError, 1)] of an invalid or truncated encoding.  The second byte
    of a rune is checked against the range its leading byte accepts, which
    excludes overlong forms, surrogates and code points above U+10FFFF. *)

Definition byte_of (c : ascii) : N := N_of_ascii c.

Definition between (lo hi : N) (c : ascii) : bool :=
  ((lo <=? byte_of c) && (byte_of c <=? hi))%N.

Definition lead_size (c0 : ascii) : nat :=
  if (byte_of c0 <? 128)%N then 1
  else if between 194 223 c0 then 2
  else if between 224 239 c0 then 3
  else if between 240 244 c0 then 4
  else 0.

Definition second_ok (c0 c1 : ascii) : bool :=
  if (byte_of c0 =? 224)%N then between 160 191 c1
  else if (byte_of c0 =? 237)%N then between 128 159 c1
  else if (byte_of c0 =? 240)%N then between 144 191 c1
  else if (byte_of c0 =? 244)%N then between 128 143 c1
  else between 128 191 c1.

Definition continuation (c : ascii) : bool := between 128 191 c.

Definition rune_width (s : string) : nat :=
  match s with
  | EmptyString => 0
  | String c0 t0 =>
      match lead_size c0, t0 with
      | 1%nat, _ => 1
      | 2%nat, String c1 _ => if second_ok c0 c1 then 2 else 0
      | 3%nat, String c1 (String c2 _) =>
          if second_ok c0 c1 && continuation c2 then 3 else 0
      | 4%nat, String c1 (String c2 (String c3 _)) =>
          if second_ok c0 c1 && continuation c2 && continuation c3 then 4 else 0
      | _, _ => 0
      end
  end.

(** [utf8.ValidString]. *)
Fixpoint ValidString (s : string) : bool :=
  match s with
  | EmptyString => true
  | String c0 t0 =>
      match rune_width s, t0 with
      | 1%nat, _ => ValidString t0
      | 2%nat, String _ t1 => ValidString t1
      | 3%nat, String _ (String _ t2) => ValidString t2
      | 4%nat, String _ (String _ (String _ t3)) => ValidString t3
      | _, _ => false
      end
  end.

(** U+FFFD, the replacement character, in UTF-8. *)
Definition replacement_char : string :=
  String "239"%char (String "191"%char (String "189"%char EmptyString)).

(** What a string becomes when [encoding/json] writes it and reads it
    back.  The encoder copies every well-formed rune (escaping some of
    them, which the decoder undoes) and writes the escape of U+FFFD for
    each byte at which [DecodeRuneInString] reports [(RuneError, 1)]
    ("String values encode as JSON strings coerced to valid UTF-8,
    replacing invalid bytes with the Unicode replacement rune"). *)
Fixpoint coerce_utf8 (s : string) : string :=
  match s with
  | EmptyString => EmptyString
  | String c0 t0 =>
      match rune_width s, t0 with
      | 1%nat, _ => String c0 (coerce_utf8 t0)
      | 2%nat, String c1 t1 => String c0 (String c1 (coerce_utf8 t1))
      | 3%nat, String c1 (String c2 t2) =>
          String c0 (String c1 (String c2 (coerce_utf8 t2)))
      | 4%nat, String c1 (String c2 (String c3 t3)) =>
          String c0 (String c1 (String c2 (String c3 (coerce_utf8 t3))))
      | _, _ => replacement_char +:+ coerce_utf8 t0
      end
  end.

(** ** JSON documents, as package [encoding/json] reads and writes them

    A [json] value is the document that a JSON text denotes, after the
    scanner has undone the quoting of strings.  [JNumber] is an integer
    literal, [JFloat] any other number literal (kept as written). *)

Inductive json :=
  | JNull
  | JBool (b : bool)
  | JNumber (n : Z)
  | JFloat (literal : string)
  | JString (s : string)
  | JArray (elements : list json)
  | JObject (members : list (string * json)).

Definition json_kind (v : json) : string :=
  match v with
  | JNull => "null"
  | JBool _ => "bool"
  | JNumber _ | JFloat _ => "number"
  | JString _ => "string"
  | JArray _ => "array"
  | JObject _ => "object"
  end.

(** The message of a [json.UnmarshalTypeError]. *)
Definition UnmarshalTypeError (v : json) (gotype : string) : error :=
  "json: cannot unmarshal " +:+ json_kind v +:+ " into Go value of type " +:+ gotype.

(** [decodeState.saveError]: the first error is kept, decoding goes on. *)
Definition saveError (saved new : option error) : option error :=
  match saved with
  | Some _ => saved
  | None => new
  end.

(** The key under which a field is written and looked for: the name given
    by its [json] tag, the Go name of the field when it has none. *)
Definition json_name (f : StructField) : string :=
  let tag := Tag_Get (Tag f) "json" in
  if (String.length tag =? 0)%nat then Name f else tag.

Definition lower (c : ascii) : ascii :=
  if between 65 90 c then ascii_of_N (byte_of c + 32) else c.

Fixpoint fold_name (s : string) : string :=
  match s with
  | EmptyString => EmptyString
  | String c t => String (lower c) (fold_name t)
  end.

(** The field that receives the member [key] of an object: a field whose
    key is exactly [key], otherwise the first whose key equals it up to
    the case of ASCII letters.  The result is the Go name of the field. *)
Fixpoint find_exact (fields : list StructField) (key : string) : option string :=
  match fields with
  | [] => None
  | f :: rest => if String.eqb (json_name f) key then Some (Name f) else find_exact rest key
  end.

Fixpoint find_folded (fields : list StructField) (key : string) : option string :=
  match fields with
  | [] => None
  | f :: rest =>
      if String.eqb (fold_name (json_name f)) (fold_name key) then Some (Name f)
      else find_folded rest key
  end.

Definition find_field (fields : list StructField) (key : string) : option string :=
  match find_exact fields key with
  | Some name => Some name
  | None => find_folded fields key
  end.

(** *** Encoding *)

Definition encode_string (s : string) : json := JString (coerce_utf8 s).

Definition encode_int (n : Z) : json := JNumber n.

(** A struct is written as an object with one member per field, in
    declaration order; [get name] gives the encoding of the field called
    [name]. *)
Definition encode_struct {S : Type} (fields : list StructField)
    (get : string -> S -> json) (s : S) : json :=
  JObject (map (fun f => (json_name f, get (Name f) s)) fields).

Definition get_Annotation (name : string) (a : ScienceSourceAnnotation) : json :=
  if String.eqb name "Item" then encode_string (Annotation.Item a)
  else if String.eqb name "TermFound" then encode_string (Annotation.TermFound a)
  else if String.eqb name "LengthOfTermFound" then encode_int (Annotation.LengthOfTermFound a)
  else if String.eqb name "WikiDataItemCode" then encode_string (Annotation.WikiDataItemCode a)
  else if String.eqb name "DictionaryName" then encode_string (Annotation.DictionaryName a)
  else if String.eqb name "TimeCode" then encode_string (Annotation.TimeCode a)
  else if String.eqb name "InstanceOf" then encode_string (Annotation.InstanceOf a)
  else if String.eqb name "ScienceSourceItemID" then encode_string (Annotation.ScienceSourceItemID a)
  else JNull.

Definition Marshal_Annotation : ScienceSourceAnnotation -> json :=
  encode_struct TypeOf_ScienceSourceAnnotation get_Annotation.

Definition get_AnchorPoint (name : string) (p : ScienceSourceAnchorPoint) : json :=
  if String.eqb name "Item" then encode_string (AnchorPoint.Item p)
  else if String.eqb name "PrecedingPhrase" then encode_string (AnchorPoint.PrecedingPhrase p)
  else if String.eqb name "FollowingPhrase" then encode_string (AnchorPoint.FollowingPhrase p)
  else if String.eqb name "DistanceToPreceding" then encode_int (AnchorPoint.DistanceToPreceding p)
  else if String.eqb name "DistanceToFollowing" then encode_int (AnchorPoint.DistanceToFollowing p)
  else if String.eqb name "CharacterNumber" then encode_int (AnchorPoint.CharacterNumber p)
  else if String.eqb name "TimeCode" then encode_string (AnchorPoint.TimeCode p)
  else if String.eqb name "InstanceOf" then encode_string (AnchorPoint.InstanceOf p)
  else if String.eqb name "ScienceSourceArticleTitle"
    then encode_string (AnchorPoint.ScienceSourceArticleTitle p)
  else if String.eqb name "AnchorPoint" then encode_string (AnchorPoint.AnchorPoint p)
  else if String.eqb name "PrecedingAnchorPoint"
    then encode_string (AnchorPoint.PrecedingAnchorPoint p)
  else if String.eqb name "FollowingAnchorPoint"
    then encode_string (AnchorPoint.FollowingAnchorPoint p)
  else if String.eqb name "Anchors" then encode_string (AnchorPoint.Anchors p)
  else if String.eqb name "ScienceSourceItemID"
    then encode_string (AnchorPoint.ScienceSourceItemID p)
  else if String.eqb name "Annotation" then Marshal_Annotation (AnchorPoint.Annotation p)
  else JNull.

Definition Marshal_AnchorPoint : ScienceSourceAnchorPoint -> json :=
  encode_struct TypeOf_ScienceSourceAnchorPoint get_AnchorPoint.

(** A [nil] slice is written as [null], any other slice as an array. *)
Definition encode_AnchorPoints (s : option (list ScienceSourceAnchorPoint)) : json :=
  match s with
  | None => JNull
  | Some l => JArray (map Marshal_AnchorPoint l)
  end.

Definition get_Article (name : string) (a : ScienceSourceArticle) : json :=
  if String.eqb name "Item" then encode_string (Article.Item a)
  else if String.eqb name "WikiDataItemCode" then encode_string (Article.WikiDataItemCode a)
  else if String.eqb name "ArticleTextTitle" then encode_string (Article.ArticleTextTitle a)
  else if String.eqb name "PublicationDate" then encode_string (Article.PublicationDate a)
  else if String.eqb name "TimeCode" then encode_string (Article.TimeCode a)
  else if String.eqb name "CharacterNumber" then encode_int (Article.CharacterNumber a)
  else if String.eqb name "PrecedingPhrase" then encode_string (Article.PrecedingPhrase a)
  else if String.eqb name "FollowingPhrase" then encode_string (Article.FollowingPhrase a)
  else if String.eqb name "InstanceOf" then encode_string (Article.InstanceOf a)
  else if String.eqb name "ScienceSourceArticleTitle"
    then encode_string (Article.ScienceSourceArticleTitle a)
  else if String.eqb name "PageID" then encode_int (Article.PageID a)
  else if String.eqb name "FollowingAnchorPoint"
    then encode_string (Article.FollowingAnchorPoint a)
  else if String.eqb name "Annotations" then encode_AnchorPoints (Article.Annotations a)
  else JNull.

(** [json.Marshal] of a [*ScienceSourceArticle]. *)
Definition Marshal : ScienceSourceArticle -> json :=
  encode_struct TypeOf_ScienceSourceArticle get_Article.

(** *** Decoding

    Each store returns the new value of the variable it decodes into and
    the [UnmarshalTypeError] it saved, if any.  [null] leaves a string,
    an int or a struct as it is. *)

Definition store_string (v : json) (old : string) : string * option error :=
  match v with
  | JString s => (s, None)
  | JNull => (old, None)
  | _ => (old, Some (UnmarshalTypeError v "string"))
  end.

Definition store_int (v : json) (old : Z) : Z * option error :=
  match v with
  | JNumber n => if int_ok n then (n, None) else (old, Some (UnmarshalTypeError v "int"))
  | JNull => (old, None)
  | _ => (old, Some (UnmarshalTypeError v "int"))
  end.

(** The loop of [decodeState.object] over the members of an object:
    a member whose key names no field is skipped; [set name v] stores
    [v] into the field called [name]. *)
Fixpoint decode_members {S : Type} (fields : list StructField)
    (set : string -> json -> S -> S * option error)
    (members : list (string * json)) (s : S) (saved : option error)
    : S * option error :=
  match members with
  | [] => (s, saved)
  | (key, v) :: rest =>
      match find_field fields key with
      | Some name =>
          let '(s', e) := set name v s in
          decode_members fields set rest s' (saveError saved e)
      | None => decode_members fields set rest s saved
      end
  end.

Definition decode_struct {S : Type} (gotype : string) (fields : list StructField)
    (set : string -> json -> S -> S * option error) (v : json) (s : S)
    : S * option error :=
  match v with
  | JObject members => decode_members fields set members s None
  | JNull => (s, None)
  | _ => (s, Some (UnmarshalTypeError v gotype))
  end.

Definition set_Annotation (name : string) (v : json) (a : ScienceSourceAnnotation)
    : ScienceSourceAnnotation * option error :=
  let '(Annotation.mk item term len wd dict time inst id) := a in
  if String.eqb name "Item" then
    let '(x, e) := store_string v item in (Annotation.mk x term len wd dict time inst id, e)
  else if String.eqb name "TermFound" then
    let '(x, e) := store_string v term in (Annotation.mk item x len wd dict time inst id, e)
  else if String.eqb name "LengthOfTermFound" then
    let '(x, e) := store_int v len in (Annotation.mk item term x wd dict time inst id, e)
  else if String.eqb name "WikiDataItemCode" then
    let '(x, e) := store_string v wd in (Annotation.mk item term len x dict time inst id, e)
  else if String.eqb name "DictionaryName" then
    let '(x, e) := store_string v dict in (Annotation.mk item term len wd x time inst id, e)
  else if String.eqb name "TimeCode" then
    let '(x, e) := store_string v time in (Annotation.mk item term len wd dict x inst id, e)
  else if String.eqb name "InstanceOf" then
    let '(x, e) := store_string v inst in (Annotation.mk item term len wd dict time x id, e)
  else if String.eqb name "ScienceSourceItemID" then
    let '(x, e) := store_string v id in (Annotation.mk item term len wd dict time inst x, e)
  else (a, None).

Definition Unmarshal_Annotation : json -> ScienceSourceAnnotation ->
    ScienceSourceAnnotation * option error :=
  decode_struct "main.ScienceSourceAnnotation" TypeOf_ScienceSourceAnnotation set_Annotation.

Definition set_AnchorPoint (name : string) (v : json) (p : ScienceSourceAnchorPoint)
    : ScienceSourceAnchorPoint * option error :=
  let '(AnchorPoint.mk item pp fp dp df ch time inst title point pa fa anchors id ann) := p in
  if String.eqb name "Item" then
    let '(x, e) := store_string v item in
    (AnchorPoint.mk x pp fp dp df ch time inst title point pa fa anchors id ann, e)
  else if String.eqb name "PrecedingPhrase" then
    let '(x, e) := store_string v pp in
    (AnchorPoint.mk item x fp dp df ch time inst title point pa fa anchors id ann, e)
  else if String.eqb name "FollowingPhrase" then
    let '(x, e) := store_string v fp in
    (AnchorPoint.mk item pp x dp df ch time inst title point pa fa anchors id ann, e)
  else if String.eqb name "DistanceToPreceding" then
    let '(x, e) := store_int v dp in
    (AnchorPoint.mk item pp fp x df ch time inst title point pa fa anchors id ann, e)
  else if String.eqb name "DistanceToFollowing" then
    let '(x, e) := store_int v df in
    (AnchorPoint.mk item pp fp dp x ch time inst title point pa fa anchors id ann, e)
  else if String.eqb name "CharacterNumber" then
    let '(x, e) := store_int v ch in
    (AnchorPoint.mk item pp fp dp df x time inst title point pa fa anchors id ann, e)
  else if String.eqb name "TimeCode" then
    let '(x, e) := store_string v time in
    (AnchorPoint.mk item pp fp dp df ch x inst title point pa fa anchors id ann, e)
  else if String.eqb name "InstanceOf" then
    let '(x, e) := store_string v inst in
    (AnchorPoint.mk item pp fp dp df ch time x title point pa fa anchors id ann, e)
  else if String.eqb name "ScienceSourceArticleTitle" then
    let '(x, e) := store_string v title in
    (AnchorPoint.mk item pp fp dp df ch time inst x point pa fa anchors id ann, e)
  else if String.eqb name "AnchorPoint" then
    let '(x, e) := store_string v point in
    (AnchorPoint.mk item pp fp dp df ch time inst title x pa fa anchors id ann, e)
  else if String.eqb name "PrecedingAnchorPoint" then
    let '(x, e) := store_string v pa in
    (AnchorPoint.mk item pp fp dp df ch time inst title point x fa anchors id ann, e)
  else if String.eqb name "FollowingAnchorPoint" then
    let '(x, e) := store_string v fa in
    (AnchorPoint.mk item pp fp dp df ch time inst title point pa x anchors id ann, e)
  else if String.eqb name "Anchors" then
    let '(x, e) := store_string v anchors in
    (AnchorPoint.mk item pp fp dp df ch time inst title point pa fa x id ann, e)
  else if String.eqb name "ScienceSourceItemID" then
    let '(x, e) := store_string v id in
    (AnchorPoint.mk item pp fp dp df ch time inst title point pa fa anchors x ann, e)
  else if String.eqb name "Annotation" then
    let '(x, e) := Unmarshal_Annotation v ann in
    (AnchorPoint.mk item pp fp dp df ch time inst title point pa fa anchors id x, e)
  else (p, None).

Definition Unmarshal_AnchorPoint : json -> ScienceSourceAnchorPoint ->
    ScienceSourceAnchorPoint * option error :=
  decode_struct "main.ScienceSourceAnchorPoint" TypeOf_ScienceSourceAnchorPoint set_AnchorPoint.

(** The zero values of the three structs. *)
Definition zero_Annotation : ScienceSourceAnnotation :=
  Annotation.mk "" "" 0 "" "" "" "" "".

Definition zero_AnchorPoint : ScienceSourceAnchorPoint :=
  AnchorPoint.mk "" "" "" 0 0 0 "" "" "" "" "" "" "" "" zero_Annotation.

Definition zero_Article : ScienceSourceArticle :=
  Article.mk "" "" "" "" "" 0 "" "" "" "" 0 "" None.

(** The loop of [decodeState.array] into a slice: element [i] of the
    array is decoded into element [i] of the slice, a new zero element
    when the slice is shorter; the slice ends with the array. *)
Fixpoint decode_elements (elements : list json) (old : list ScienceSourceAnchorPoint)
    (saved : option error) : list ScienceSourceAnchorPoint * option error :=
  match elements with
  | [] => ([], saved)
  | v :: rest =>
      let '(p, e) := Unmarshal_AnchorPoint v (hd zero_AnchorPoint old) in
      let '(ps, saved') := decode_elements rest (tl old) (saveError saved e) in
      (p :: ps, saved')
  end.

(** [null] makes the slice [nil]; an array, also an empty one, makes it a
    slice that is not [nil]. *)
Definition store_AnchorPoints (v : json) (old : option (list ScienceSourceAnchorPoint))
    : option (list ScienceSourceAnchorPoint) * option error :=
  match v with
  | JArray elements =>
      let '(l, e) := decode_elements elements (default [] old) None in (Some l, e)
  | JNull => (None, None)
  | _ => (old, Some (UnmarshalTypeError v "[]main.ScienceSourceAnchorPoint"))
  end.

Definition set_Article (name : string) (v : json) (a : ScienceSourceArticle)
    : ScienceSourceArticle * option error :=
  let '(Article.mk item wd title date time ch pp fp inst sstitle page fa anns) := a in
  if String.eqb name "Item" then
    let '(x, e) := store_string v item in
    (Article.mk x wd title date time ch pp fp inst sstitle page fa anns, e)
  else if String.eqb name "WikiDataItemCode" then
    let '(x, e) := store_string v wd in
    (Article.mk item x title date time ch pp fp inst sstitle page fa anns, e)
  else if String.eqb name "ArticleTextTitle" then
    let '(x, e) := store_string v title in
    (Article.mk item wd x date time ch pp fp inst sstitle page fa anns, e)
  else if String.eqb name "PublicationDate" then
    let '(x, e) := store_string v date in
    (Article.mk item wd title x time ch pp fp inst sstitle page fa anns, e)
  else if String.eqb name "TimeCode" then
    let '(x, e) := store_string v time in
    (Article.mk item wd title date x ch pp fp inst sstitle page fa anns, e)
  else if String.eqb name "CharacterNumber" then
    let '(x, e) := store_int v ch in
    (Article.mk item wd title date time x pp fp inst sstitle page fa anns, e)
  else if String.eqb name "PrecedingPhrase" then
    let '(x, e) := store_string v pp in
    (Article.mk item wd title date time ch x fp inst sstitle page fa anns, e)
  else if String.eqb name "FollowingPhrase" then
    let '(x, e) := store_string v fp in
    (Article.mk item wd title date time ch pp x inst sstitle page fa anns, e)
  else if String.eqb name "InstanceOf" then
    let '(x, e) := store_string v inst in
    (Article.mk item wd title date time ch pp fp x sstitle page fa anns, e)
  else if String.eqb name "ScienceSourceArticleTitle" then
    let '(x, e) := store_string v sstitle in
    (Article.mk item wd title date time ch pp fp inst x page fa anns, e)
  else if String.eqb name "PageID" then
    let '(x, e) := store_int v page in
    (Article.mk item wd title date time ch pp fp inst sstitle x fa anns, e)
  else if String.eqb name "FollowingAnchorPoint" then
    let '(x, e) := store_string v fa in
    (Article.mk item wd title date time ch pp fp inst sstitle page x anns, e)
  else if String.eqb name "Annotations" then
    let '(x, e) := store_AnchorPoints v anns in
    (Article.mk item wd title date time ch pp fp inst sstitle page fa x, e)
  else (a, None).

(** [json.Unmarshal] into a [*ScienceSourceArticle]. *)
Definition Unmarshal : json -> ScienceSourceArticle -> ScienceSourceArticle * option error :=
  decode_struct "main.ScienceSourceArticle" TypeOf_ScienceSourceArticle set_Article.

(** *** What a round trip through a document does to an article

    [coerce_Article a] is [a] with every string coerced to valid UTF-8;
    [utf8_Article a] says that every string of [a] is valid UTF-8 already,
    [ints_Article a] that every int of [a] is in the range of [int]. *)

Definition coerce_Annotation (a : ScienceSourceAnnotation) : ScienceSourceAnnotation :=
  let '(Annotation.mk item term len wd dict time inst id) := a in
  Annotation.mk (coerce_utf8 item) (coerce_utf8 term) len (coerce_utf8 wd)
    (coerce_utf8 dict) (coerce_utf8 time) (coerce_utf8 inst) (coerce_utf8 id).

Definition coerce_AnchorPoint (p : ScienceSourceAnchorPoint) : ScienceSourceAnchorPoint :=
  let '(AnchorPoint.mk item pp fp dp df ch time inst title point pa fa anchors id ann) := p in
  AnchorPoint.mk (coerce_utf8 item) (coerce_utf8 pp) (coerce_utf8 fp) dp df ch
    (coerce_utf8 time) (coerce_utf8 inst) (coerce_utf8 title) (coerce_utf8 point)
    (coerce_utf8 pa) (coerce_utf8 fa) (coerce_utf8 anchors) (coerce_utf8 id)
    (coerce_Annotation ann).

Definition coerce_Article (a : ScienceSourceArticle) : ScienceSourceArticle :=
  let '(Article.mk item wd title date time ch pp fp inst sstitle page fa anns) := a in
  Article.mk (coerce_utf8 item) (coerce_utf8 wd) (coerce_utf8 title) (coerce_utf8 date)
    (coerce_utf8 time) ch (coerce_utf8 pp) (coerce_utf8 fp) (coerce_utf8 inst)
    (coerce_utf8 sstitle) page (coerce_utf8 fa) (map coerce_AnchorPoint <$> anns).

Definition utf8_Annotation (a : ScienceSourceAnnotation) : bool :=
  let '(Annotation.mk item term _ wd dict time inst id) := a in
  forallb ValidString [item; term; wd; dict; time; inst; id].

Definition utf8_AnchorPoint (p : ScienceSourceAnchorPoint) : bool :=
  let '(AnchorPoint.mk item pp fp _ _ _ time inst title point pa fa anchors id ann) := p in
  forallb ValidString [item; pp; fp; time; inst; title; point; pa; fa; anchors; id]
  && utf8_Annotation ann.

Definition utf8_Article (a : ScienceSourceArticle) : bool :=
  let '(Article.mk item wd title date time _ pp fp inst sstitle _ fa anns) := a in
  forallb ValidString [item; wd; title; date; time; pp; fp; inst; sstitle; fa]
  && forallb utf8_AnchorPoint (default [] anns).

Definition ints_Annotation (a : ScienceSourceAnnotation) : bool :=
  int_ok (Annotation.LengthOfTermFound a).

Definition ints_AnchorPoint (p : ScienceSourceAnchorPoint) : bool :=
  int_ok (AnchorPoint.DistanceToPreceding p)
  && int_ok (AnchorPoint.DistanceToFollowing p)
  && int_ok (AnchorPoint.CharacterNumber p)
  && ints_Annotation (AnchorPoint.Annotation p).

Definition ints_Article (a : ScienceSourceArticle) : bool :=
  int_ok (Article.CharacterNumber a)
  && int_ok (Article.PageID a)
  && forallb ints_AnchorPoint (default [] (Article.Annotations a)).

(** ** The linking stage of the upload

    sciencesource.go declares the fields the linking fills in
    ([PrecedingAnchorPoint], [FollowingAnchorPoint], [ScienceSourceItemID])
    and no function that fills them in. *)

(** Modelled from the spec: the states of an article's upload, which
    sciencesource.go does not represent.  Section 4.3: "Unsubmitted",
    "ArticleUploaded", "AnnotationsUploaded", "Linked (terminal)". *)
Inductive Stage := Unsubmitted | ArticleUploaded | AnnotationsUploaded | Linked.

(** Modelled from the spec: an article together with the state its
    upload has reached, which sciencesource.go does not record. *)
Record Submission := {
  submitted : ScienceSourceArticle;
  stage : Stage
}.

(** The assignment of the two references of an anchor point. *)
Definition set_neighbours (preceding following : string) (p : ScienceSourceAnchorPoint)
    : ScienceSourceAnchorPoint :=
  let '(AnchorPoint.mk item pp fp dp df ch time inst title point _ _ anchors id ann) := p in
  AnchorPoint.mk item pp fp dp df ch time inst title point preceding following anchors id ann.

(** Modelled from the spec: the computation of the predecessor and successor
    references, which is missing from sciencesource.go.  Section 3: an
    AnchorPoint "gains references to its immediate predecessor and
    successor AnchorPoint remote ids, forming a bidirectional linked chain
    covering the whole article, with the article's own pre/post positions
    acting as chain terminators".  [preceding] is the reference of the
    position before the first point of [l], [terminus] the one after the
    last. *)
Fixpoint link_chain (preceding terminus : string) (l : list ScienceSourceAnchorPoint)
    : list ScienceSourceAnchorPoint :=
  match l with
  | [] => []
  | p :: rest =>
      let following :=
        match rest with
        | [] => terminus
        | q :: _ => AnchorPoint.ScienceSourceItemID q
        end in
      set_neighbours preceding following p
        :: link_chain (AnchorPoint.ScienceSourceItemID p) terminus rest
  end.

Definition set_Annotations (anns : option (list ScienceSourceAnchorPoint))
    (a : ScienceSourceArticle) : ScienceSourceArticle :=
  let '(Article.mk item wd title date time ch pp fp inst sstitle page fa _) := a in
  Article.mk item wd title date time ch pp fp inst sstitle page fa anns.

(** Modelled from the spec: the transition from AnnotationsUploaded to
    Linked, which is missing from sciencesource.go.  Section 4.3: the
    transitions are strictly sequential, and after AnnotationsUploaded
    "each AnchorPoint may now set preceding/following anchor references to
    neighboring remote ids"; Linked is the state in which "all
    cross-references [are] resolved".  [before] and [after] are the
    article's two terminus markers.  The transition is refused ([None])
    from any other stage. *)
Definition link (before after : string) (s : Submission) : option Submission :=
  match stage s with
  | AnnotationsUploaded =>
      Some {| submitted :=
                set_Annotations
                  (link_chain before after <$> Article.Annotations (submitted s))
                  (submitted s);
              stage := Linked |}
  | _ => None
  end.

(** ** Files

    A file system holds the content of each file and says which operation
    fails on which path, and with what error.  A write that fails may
    have written a part of its data: [torn name data] is what a failed
    write of [data] leaves in the file [name]. *)

Inductive FileOp := OpCreate | OpWrite | OpOpen | OpRead | OpClose.

Record FileSystem (bytes : Type) := {
  files : gmap string bytes;
  fault : FileOp -> string -> option error;
  torn : string -> bytes -> bytes
}.
Arguments files {bytes} _.
Arguments fault {bytes} _ _ _.
Arguments torn {bytes} _ _ _.

(** ** The remote store client

    [WikiDataClient] and its methods are declared in another file of the
    package.  Here the remote store is a state machine given by three
    functions ([lookup_property], [lookup_item], [create_article]), and the
    client keeps, next to the state of the store, the list of the calls
    made through it. *)

Inductive Call (bytes : Type) :=
  | CallGetPropertyForLabel (label : string) (result : string + error)
  | CallGetItemForLabel (label : string) (result : string + error)
  | CallCreateArticle (title : string) (content : bytes) (result : Z + error).
Arguments CallGetPropertyForLabel {bytes} _ _.
Arguments CallGetItemForLabel {bytes} _ _.
Arguments CallCreateArticle {bytes} _ _ _.

Record WikiDataClient (bytes Server : Type) := {
  server : Server;
  calls : list (Call bytes)
}.
Arguments server {bytes Server} _.
Arguments calls {bytes Server} _.

Record ScienceSourceClient (bytes Server : Type) := {
  wikiDataClient : WikiDataClient bytes Server;
  PropertyMap : gmap string string;
  ItemMap : gmap string string
}.
Arguments wikiDataClient {bytes Server} _.
Arguments PropertyMap {bytes Server} _.
Arguments ItemMap {bytes Server} _.

(** What a call asked for, and how it ended. *)
Inductive Role := PropertyRole | ItemRole.

Definition call_target {bytes : Type} (c : Call bytes) : option (Role * string) :=
  match c with
  | CallGetPropertyForLabel label _ => Some (PropertyRole, label)
  | CallGetItemForLabel label _ => Some (ItemRole, label)
  | CallCreateArticle _ _ _ => None
  end.

Definition call_error {bytes : Type} (c : Call bytes) : option error :=
  match c with
  | CallGetPropertyForLabel _ (inr err) => Some err
  | CallGetItemForLabel _ (inr err) => Some err
  | CallCreateArticle _ _ (inr err) => Some err
  | _ => None
  end.

(** The pair (label, identifier) a successful lookup for [role] gave. *)
Definition call_resolved {bytes : Type} (role : Role) (c : Call bytes)
    : option (string * string) :=
  match role, c with
  | PropertyRole, CallGetPropertyForLabel label (inl id) => Some (label, id)
  | ItemRole, CallGetItemForLabel label (inl id) => Some (label, id)
  | _, _ => None
  end.

Definition resolved {bytes : Type} (role : Role) (cs : list (Call bytes))
    : list (string * string) :=
  omap (call_resolved role) cs.

(** No call of [cs] returned an error. *)
Definition succeeded {bytes : Type} (cs : list (Call bytes)) : Prop :=
  Forall (fun c => call_error c = None) cs.

(** The call that looks [label] up for [role]. *)
Definition lookup_call {bytes : Type} (role : Role) (label : string)
    (result : string + error) : Call bytes :=
  match role with
  | PropertyRole => CallGetPropertyForLabel label result
  | ItemRole => CallGetItemForLabel label result
  end.

(** How a run through the lookups [targets] that stops at the first
    failure shows in the calls [new] it made and in its result [r]: the
    calls are for the first targets, in order; when the run ends normally
    there is one call for each target and none failed; when it returns an
    error, that error is the one of the last call, the only one that
    failed. *)
Definition aborting_run {bytes : Type} (targets : list (Role * string))
    (new : list (Call bytes)) (r : option error) : Prop :=
  call_target <$> new = Some <$> take (length new) targets /\
  match r with
  | None => length new = length targets /\ succeeded new
  | Some e =>
      exists pre last, new = pre ++ [last] /\ succeeded pre /\ call_error last = Some e
  end.

(** The entries a map holds under the key [k]. *)
Definition entries (m : gmap string string) (k : string) : list (string * string) :=
  filter (fun kv => kv.1 = k) (map_to_list m).

(** The entries of [kvs] written into [m], in order. *)
Definition store_all (m : gmap string string) (kvs : list (string * string))
    : gmap string string :=
  foldl (fun m kv => <[kv.1 := kv.2]> m) m kvs.

(** ** The program *)

Section Program.

Context {bytes Server : Type}.

(** The content of a file that was just created. *)
Variable no_bytes : bytes.

(** The text layer of [encoding/json]: the text [Encoder.Encode] writes
    for a document, and the document (or the syntax error) [Decoder.Decode]
    reads from a text. *)
Variable json_text : json -> bytes.
Variable json_scan : bytes -> json + error.

(** The order in which a [range] statement visits the keys of a map. *)
Variable range_keys : gmap string bool -> list string.

(** The remote store. *)
Variable lookup_property : string -> Server -> (string + error) * Server.
Variable lookup_item : string -> Server -> (string + error) * Server.
Variable create_article : string -> bytes -> Server -> (Z + error) * Server.

(** *** [getValuesForTags] (lines 167-192)

    [getValuesForTagsOf] is the function over an arbitrary array of
    types; the program's [getValuesForTags] is its instance at the three
    record kinds. *)

Definition getValuesForTagsOf (types : list (list StructField)) (tagname : string)
    : list string :=
  range_keys (tagset_of_types tagname types).

Definition getValuesForTags (tagname : string) : list string :=
  getValuesForTagsOf schema_types tagname.

(** *** The methods of [WikiDataClient] *)

Definition record_call (c : Call bytes) (s : Server) (w : WikiDataClient bytes Server)
    : WikiDataClient bytes Server :=
  {| server := s; calls := calls w ++ [c] |}.

Definition GetPropertyForLabel (label : string) (w : WikiDataClient bytes Server)
    : (string + error) * WikiDataClient bytes Server :=
  let '(r, s) := lookup_property label (server w) in
  (r, record_call (CallGetPropertyForLabel label r) s w).

Definition GetItemForLabel (label : string) (w : WikiDataClient bytes Server)
    : (string + error) * WikiDataClient bytes Server :=
  let '(r, s) := lookup_item label (server w) in
  (r, record_call (CallGetItemForLabel label r) s w).

Definition CreateArticle (title : string) (content : bytes) (w : WikiDataClient bytes Server)
    : (Z + error) * WikiDataClient bytes Server :=
  let '(r, s) := create_article title content (server w) in
  (r, record_call (CallCreateArticle title content r) s w).

(** *** [NewScienceSourceClient] (lines 116-125); [w] is the result of
    [NewWikiDataClient]. *)

Definition NewScienceSourceClient (w : WikiDataClient bytes Server)
    : ScienceSourceClient bytes Server :=
  {| wikiDataClient := w; PropertyMap := ∅; ItemMap := ∅ |}.

(** *** [GetPropertyAndItemConfigurationFromServer] (lines 127-148)

    The two loops; a [Some err] is the [return err] that leaves the
    function from inside a loop. *)

Fixpoint resolve_properties (list : list string) (c : ScienceSourceClient bytes Server)
    : option error * ScienceSourceClient bytes Server :=
  match list with
  | [] => (None, c)
  | i :: rest =>
      let '(r, w) := GetPropertyForLabel i (wikiDataClient c) in
      match r with
      | inr err =>
          (Some err,
           {| wikiDataClient := w; PropertyMap := PropertyMap c; ItemMap := ItemMap c |})
      | inl label =>
          resolve_properties rest
            {| wikiDataClient := w;
               PropertyMap := <[i := label]> (PropertyMap c);
               ItemMap := ItemMap c |}
      end
  end.

Fixpoint resolve_items (list : list string) (c : ScienceSourceClient bytes Server)
    : option error * ScienceSourceClient bytes Server :=
  match list with
  | [] => (None, c)
  | i :: rest =>
      let '(r, w) := GetItemForLabel i (wikiDataClient c) in
      match r with
      | inr err =>
          (Some err,
           {| wikiDataClient := w; PropertyMap := PropertyMap c; ItemMap := ItemMap c |})
      | inl label =>
          resolve_items rest
            {| wikiDataClient := w;
               PropertyMap := PropertyMap c;
               ItemMap := <[i := label]> (ItemMap c) |}
      end
  end.

Definition GetPropertyAndItemConfigurationFromServer (c : ScienceSourceClient bytes Server)
    : option error * ScienceSourceClient bytes Server :=
  let list := getValuesForTags "property" in
  match resolve_properties list c with
  | (Some err, c1) => (Some err, c1)
  | (None, c1) =>
      let list := getValuesForTags "item" in
      match resolve_items list c1 with
      | (Some err, c2) => (Some err, c2)
      | (None, c2) => (None, c2)
      end
  end.

(** The lookups the function makes when none of them fails, in order. *)
Definition lookups_in_order : list (Role * string) :=
  (pair PropertyRole <$> getValuesForTags "property")
  ++ (pair ItemRole <$> getValuesForTags "item").

(** *** Package [os] and [io/ioutil]

    An open file is represented by its path. *)

Definition os_Create (name : string) (fs : FileSystem bytes)
    : (string + error) * FileSystem bytes :=
  match fault fs OpCreate name with
  | Some err => (inr err, fs)
  | None =>
      (inl name,
       {| files := <[name := no_bytes]> (files fs); fault := fault fs; torn := torn fs |})
  end.

(** The one [Write] that the encoder makes on a file that was just
    created. *)
Definition file_Write (f : string) (data : bytes) (fs : FileSystem bytes)
    : option error * FileSystem bytes :=
  match fault fs OpWrite f with
  | Some err =>
      (Some err,
       {| files := <[f := torn fs f data]> (files fs); fault := fault fs; torn := torn fs |})
  | None =>
      (None, {| files := <[f := data]> (files fs); fault := fault fs; torn := torn fs |})
  end.

Definition file_Close (f : string) (fs : FileSystem bytes) : option error :=
  fault fs OpClose f.

Definition os_Open (name : string) (fs : FileSystem bytes) : string + error :=
  match fault fs OpOpen name with
  | Some err => inr err
  | None =>
      match files fs !! name with
      | Some _ => inl name
      | None => inr ("open " +:+ name +:+ ": no such file or directory")
      end
  end.

Definition file_ReadAll (f : string) (fs : FileSystem bytes) : bytes + error :=
  match fault fs OpRead f with
  | Some err => inr err
  | None =>
      match files fs !! f with
      | Some data => inl data
      | None => inr ("read " +:+ f +:+ ": file already closed")
      end
  end.

Definition ioutil_ReadFile (name : string) (fs : FileSystem bytes) : bytes + error :=
  match os_Open name fs with
  | inr err => inr err
  | inl f => file_ReadAll f fs
  end.

(** *** [UploadPaper] (lines 150-165)

    The results are the returned [error], the client and the article
    that [article] points to. *)

Definition set_PageID (page_id : Z) (a : ScienceSourceArticle) : ScienceSourceArticle :=
  let '(Article.mk item wd title date time ch pp fp inst sstitle _ fa anns) := a in
  Article.mk item wd title date time ch pp fp inst sstitle page_id fa anns.

Definition UploadPaper (c : ScienceSourceClient bytes Server)
    (article : ScienceSourceArticle) (htmlFileName : string) (fs : FileSystem bytes)
    : option error * ScienceSourceClient bytes Server * ScienceSourceArticle :=
  match ioutil_ReadFile htmlFileName fs with
  | inr err => (Some err, c, article)
  | inl data =>
      let '(r, w) :=
        CreateArticle (Article.ScienceSourceArticleTitle article) data (wikiDataClient c) in
      let c' := {| wikiDataClient := w; PropertyMap := PropertyMap c; ItemMap := ItemMap c |} in
      match r with
      | inr upload_error => (Some upload_error, c', article)
      | inl page_id => (None, c', set_PageID page_id article)
      end
  end.

(** *** [Save] (lines 196-205)

    [Encode] marshals the article and writes the text in one [Write].
    The deferred [f.Close()] runs when the function returns after the
    file was created, and its result is dropped.  The
    results are the returned [error], the article that the receiver points
    to, and the file system. *)

Definition Encode (f : string) (article : ScienceSourceArticle) (fs : FileSystem bytes)
    : option error * FileSystem bytes :=
  file_Write f (json_text (Marshal article)) fs.

Definition Save (article : ScienceSourceArticle) (filename : string) (fs : FileSystem bytes)
    : option error * ScienceSourceArticle * FileSystem bytes :=
  match os_Create filename fs with
  | (inr err, fs') => (Some err, article, fs')
  | (inl f, fs') =>
      let '(err, fs'') := Encode f article fs' in
      let _ := file_Close f fs'' in
      (err, article, fs'')
  end.

(** *** [LoadScienceSourceArticle] (lines 207-218)

    [Decode] reads the text, scans it and unmarshals the document into the
    article.  The first result of the function is the pointer it returns,
    [None] being [nil]. *)

Definition Decode (f : string) (fs : FileSystem bytes) (article : ScienceSourceArticle)
    : ScienceSourceArticle * option error :=
  match file_ReadAll f fs with
  | inr err => (article, Some err)
  | inl data =>
      match json_scan data with
      | inr err => (article, Some err)
      | inl v => Unmarshal v article
      end
  end.

Definition LoadScienceSourceArticle (filename : string) (fs : FileSystem bytes)
    : option ScienceSourceArticle * option error :=
  let article := zero_Article in
  match os_Open filename fs with
  | inr err => (None, Some err)
  | inl f =>
      let '(article, err) := Decode f fs article in
      (Some article, err)
  end.

End Program.

(** ** Example instances

    A text layer that keeps a document as it is, a file system with no
    file and no fault, remote stores without state, and a few articles. *)

Definition document_text (v : json) : json := v.

Definition document_scan (data : json) : json + error := inl data.

Definition empty_disk : FileSystem json :=
  {| files := ∅; fault := fun _ _ => None; torn := fun _ _ => JNull |}.

(** A file system in which closing "article.json" fails. *)
Definition close_fails_disk : FileSystem json :=
  {| files := ∅;
     fault := fun op name =>
       match op with
       | OpClose =>
           if String.eqb name "article.json"
           then Some "close article.json: input/output error" else None
       | _ => None
       end;
     torn := fun _ _ => JNull |}.

Definition resolves_all (label : string) (s : unit) : (string + error) * unit :=
  (inl ("Q-" +:+ label), s).

Definition resolves_none (label : string) (s : unit) : (string + error) * unit :=
  (inr "connection refused", s).

Definition times_out_on (bad label : string) (s : unit) : (string + error) * unit :=
  if String.eqb label bad then (inr "timeout", s) else (inl ("P-" +:+ label), s).

Definition new_client : ScienceSourceClient json unit :=
  {| wikiDataClient := {| server := tt; calls := [] |}; PropertyMap := ∅; ItemMap := ∅ |}.

Definition example_annotation : ScienceSourceAnnotation :=
  Annotation.mk "" "aspirin" 7 "Q18216" "drugs" "2018-07-01T00:00:00Z" "" "".

Definition example_point (id : string) (character : Z) : ScienceSourceAnchorPoint :=
  AnchorPoint.mk "" "patients took " " daily" 0 12 character "2018-07-01T00:00:00Z"
    "" "PMC1234" "" "" "" "" id example_annotation.

(** An article after its upload and the upload of its annotations: the
    page identifier and the item identifiers are there, the references
    between anchor points are not. *)
Definition example_article : ScienceSourceArticle :=
  Article.mk "" "Q55" "On aspirin" "2018-07-01" "2018-07-01T00:00:00Z" 0 "" "" ""
    "PMC1234" 12 ""
    (Some [example_point "Q101" 40; example_point "Q102" 95; example_point "Q103" 120]).

(** An article whose Wikidata item code is the single byte 0xFF, which is
    not valid UTF-8. *)
Definition mangled_article : ScienceSourceArticle :=
  Article.mk "" (String "255"%char EmptyString) "On aspirin" "2018-07-01"
    "2018-07-01T00:00:00Z" 0 "" "" "" "" 0 "" None.

Definition example_submission : Submission :=
  {| submitted := example_article; stage := AnnotationsUploaded |}.

(** Four runs of the label resolver from [new_client], the keys of a map
    being visited in the order of [map_keys]: one in which the lookup of
    the property "anchors" times out, one in which the lookup of the
    property "term found" does, one in which every item lookup is
    refused, and one in which every lookup succeeds. *)
Definition anchors_run : option error * ScienceSourceClient json unit :=
  GetPropertyAndItemConfigurationFromServer map_keys (times_out_on "anchors")
    resolves_all new_client.

Definition term_found_run : option error * ScienceSourceClient json unit :=
  GetPropertyAndItemConfigurationFromServer map_keys (times_out_on "term found")
    resolves_all new_client.

Definition items_refused_run : option error * ScienceSourceClient json unit :=
  GetPropertyAndItemConfigurationFromServer map_keys resolves_all resolves_none new_client.

Definition resolved_run : option error * ScienceSourceClient json unit :=
  GetPropertyAndItemConfigurationFromServer map_keys resolves_all resolves_all new_client.

(** The four lookups that [anchors_run] makes before the one that fails. *)
Definition calls_before_anchors : list (Call json) :=
  [ CallGetPropertyForLabel "Wikidata item code" (inl "P-Wikidata item code");
    CallGetPropertyForLabel "ScienceSource article title"
      (inl "P-ScienceSource article title");
    CallGetPropertyForLabel "character number" (inl "P-character number");
    CallGetPropertyForLabel "instance of" (inl "P-instance of") ].

Definition anchors_call : Call json := CallGetPropertyForLabel "anchors" (inr "timeout").

(** [example_submission] after the linking, with "Q55" (the article) and
    "Q9" (the terminus) as markers. *)
Definition linked_submission : Submission :=
  default example_submission (link "Q55" "Q9" example_submission).

(** The file system after [example_article] was saved in an empty one. *)
Definition saved_disk : FileSystem json :=
  (Save JNull document_text example_article "article.json" empty_disk).2.

(** A client whose [PropertyMap] already holds an entry, a remote store
    that creates every article as page 4711, and a file system that holds
    the paper to upload. *)
Definition stale_client : ScienceSourceClient json unit :=
  {| wikiDataClient := wikiDataClient new_client;
     PropertyMap := {[ "term found" := "P-old" ]};
     ItemMap := ∅ |}.

Definition creates_page (title : string) (content : json) (s : unit) : (Z + error) * unit :=
  (inl 4711, s).

Definition paper_disk : FileSystem json :=
  {| files := {[ "paper.html" := JString "<html><body>aspirin</body></html>" ]};
     fault := fun _ _ => None;
     torn := fun _ _ => JNull |}.

(** * Properties *)

(** ** UTF-8: [coerce_utf8] leaves valid strings alone *)

Lemma coerce_utf8_bounded (n : nat) (s : string) :
  (String.length s <= n)%nat -> ValidString s = true -> coerce_utf8 s = s.
Proof.
  revert s. induction n as [|n IH]; intros s Hlen Hvalid.
  - destruct s; [reflexivity | simpl in Hlen; lia].
  - destruct s as [|c0 t0]; [reflexivity|].
    cbn [coerce_utf8 ValidString] in *.
    destruct (rune_width (String c0 t0)) as [|[|[|[|[|w]]]]]; try discriminate.
    + f_equal. apply IH; [simpl in Hlen; lia | assumption].
    + destruct t0 as [|c1 t1]; [discriminate|].
      do 2 f_equal. apply IH; [simpl in Hlen; lia | assumption].
    + destruct t0 as [|c1 [|c2 t2]]; try discriminate.
      do 3 f_equal. apply IH; [simpl in Hlen; lia | assumption].
    + destruct t0 as [|c1 [|c2 [|c3 t3]]]; try discriminate.
      do 4 f_equal. apply IH; [simpl in Hlen; lia | assumption].
Qed.

Lemma coerce_utf8_valid (s : string) : ValidString s = true -> coerce_utf8 s = s.
Proof. apply (coerce_utf8_bounded (String.length s)). lia. Qed.

(** ** A document written by [Marshal] is read back by [Unmarshal] *)

Lemma Unmarshal_Marshal_Annotation (a : ScienceSourceAnnotation) :
  ints_Annotation a = true ->
  Unmarshal_Annotation (Marshal_Annotation a) zero_Annotation = (coerce_Annotation a, None).
Proof.
  destruct a as [item term len wd dict time inst id]. unfold ints_Annotation. simpl. intros Hlen.
  cbv -[int_ok coerce_utf8]. rewrite Hlen. reflexivity.
Qed.

Lemma Unmarshal_Marshal_AnchorPoint (p : ScienceSourceAnchorPoint) :
  ints_AnchorPoint p = true ->
  Unmarshal_AnchorPoint (Marshal_AnchorPoint p) zero_AnchorPoint = (coerce_AnchorPoint p, None).
Proof.
  destruct p as [item pp fp dp df ch time inst title point pa fa anchors id ann].
  unfold ints_AnchorPoint. simpl. rewrite !andb_true_iff. intros [[[Hdp Hdf] Hch] Hann].
  apply Unmarshal_Marshal_Annotation in Hann.
  cbv -[int_ok coerce_utf8 Unmarshal_Annotation Marshal_Annotation zero_Annotation coerce_Annotation].
  rewrite Hdp, Hdf, Hch, Hann. reflexivity.
Qed.

Lemma decode_elements_Marshal (l : list ScienceSourceAnchorPoint) :
  forallb ints_AnchorPoint l = true ->
  decode_elements (map Marshal_AnchorPoint l) [] None = (map coerce_AnchorPoint l, None).
Proof.
  induction l as [|p l IH]; cbn [forallb map decode_elements hd tl]; [reflexivity|].
  rewrite andb_true_iff. intros [Hp Hl].
  rewrite (Unmarshal_Marshal_AnchorPoint p Hp). cbn [saveError].
  rewrite (IH Hl). reflexivity.
Qed.

Lemma store_AnchorPoints_encode (s : option (list ScienceSourceAnchorPoint)) :
  forallb ints_AnchorPoint (default [] s) = true ->
  store_AnchorPoints (encode_AnchorPoints s) None = (map coerce_AnchorPoint <$> s, None).
Proof.
  destruct s as [l|]; cbn [default encode_AnchorPoints store_AnchorPoints]; [|reflexivity].
  intros Hl. rewrite (decode_elements_Marshal l Hl). reflexivity.
Qed.

Lemma Unmarshal_Marshal (a : ScienceSourceArticle) :
  ints_Article a = true ->
  Unmarshal (Marshal a) zero_Article = (coerce_Article a, None).
Proof.
  destruct a as [item wd title date time ch pp fp inst sstitle page fa anns].
  unfold ints_Article. simpl. rewrite !andb_true_iff. intros [[Hch Hpage] Hanns].
  apply store_AnchorPoints_encode in Hanns.
  cbv -[int_ok coerce_utf8 store_AnchorPoints encode_AnchorPoints coerce_AnchorPoint fmap].
  rewrite Hch, Hpage, Hanns. reflexivity.
Qed.

Lemma coerce_Annotation_valid (a : ScienceSourceAnnotation) :
  utf8_Annotation a = true -> coerce_Annotation a = a.
Proof.
  destruct a; simpl. rewrite !andb_true_iff.
  intros (? & ? & ? & ? & ? & ? & ? & _).
  rewrite !coerce_utf8_valid by assumption. reflexivity.
Qed.

Lemma coerce_AnchorPoint_valid (p : ScienceSourceAnchorPoint) :
  utf8_AnchorPoint p = true -> coerce_AnchorPoint p = p.
Proof.
  destruct p; simpl. rewrite !andb_true_iff.
  intros ((? & ? & ? & ? & ? & ? & ? & ? & ? & ? & ? & _) & ?).
  rewrite !coerce_utf8_valid, coerce_Annotation_valid by assumption. reflexivity.
Qed.

Lemma coerce_Article_valid (a : ScienceSourceArticle) :
  utf8_Article a = true -> coerce_Article a = a.
Proof.
  destruct a as [item wd title date time ch pp fp inst sstitle page fa anns]; simpl.
  rewrite !andb_true_iff.
  intros ((? & ? & ? & ? & ? & ? & ? & ? & ? & ? & _) & Hanns).
  rewrite !coerce_utf8_valid by assumption. f_equal.
  destruct anns as [l|]; simpl in *; [|reflexivity]. f_equal.
  induction l as [|p l IH]; simpl in *; [reflexivity|].
  apply andb_true_iff in Hanns as [Hp Hl].
  rewrite coerce_AnchorPoint_valid, IH by assumption. reflexivity.
Qed.

(** ** The tag registry *)

Lemma foldl_concat {A B : Type} (g : A -> B -> A) (ls : list (list B)) (a : A) :
  foldl (fun acc l => foldl g acc l) a ls = foldl g a (mjoin ls).
Proof.
  revert a. induction ls as [|l ls IH]; intros a; simpl; [reflexivity|].
  rewrite foldl_app. apply IH.
Qed.

Lemma tagset_fields_lookup (tagname : string) (fs : list StructField)
    (m : gmap string bool) (k : string) :
  is_Some (foldl (tagset_of_field tagname) m fs !! k) <->
  is_Some (m !! k) \/
  (k <> "" /\ exists f, f ∈ fs /\ Tag_Get (Tag f) tagname = k).
Proof.
  revert m. induction fs as [|f fs IH]; intros m; simpl.
  - split; [auto|]. intros [H|(_ & f & Hf & _)]; [assumption|]. inversion Hf.
  - rewrite IH. unfold tagset_of_field at 1.
    destruct (Tag_Get (Tag f) tagname) as [|c t] eqn:Htag; simpl.
    + split.
      * intros [H|(Hk & g & Hg & Heq)]; [auto|].
        right. split; [assumption|]. exists g. split; [by right | assumption].
      * intros [H|(Hk & g & Hg & Heq)]; [auto|].
        apply elem_of_cons in Hg as [->|Hg].
        -- congruence.
        -- right. split; [assumption|]. by exists g.
    + split.
      * intros [H|(Hk & g & Hg & Heq)].
        -- rewrite lookup_insert in H. case_decide as Hd.
           ++ right. subst k. split; [discriminate|]. exists f. split; [by left | assumption].
           ++ by left.
        -- right. split; [assumption|]. exists g. split; [by right | assumption].
      * intros [H|(Hk & g & Hg & Heq)].
        -- left. rewrite lookup_insert. case_decide; [by eexists | assumption].
        -- apply elem_of_cons in Hg as [->|Hg].
           ++ left. rewrite Htag in Heq. rewrite Heq. rewrite lookup_insert_eq. by eexists.
           ++ right. split; [assumption|]. by exists g.
Qed.

Lemma elem_of_map_keys (m : gmap string bool) (k : string) :
  k ∈ map_keys m <-> is_Some (m !! k).
Proof.
  unfold map_keys. rewrite list_elem_of_fmap. split.
  - intros ([k' b] & -> & H). apply elem_of_map_to_list in H. by exists b.
  - intros [b H]. exists (k, b). split; [reflexivity|]. by apply elem_of_map_to_list.
Qed.

Lemma elem_of_tagset (tagname : string) (types : list (list StructField)) (k : string) :
  k ∈ map_keys (tagset_of_types tagname types) <->
  k <> "" /\ exists t f, t ∈ types /\ f ∈ t /\ Tag_Get (Tag f) tagname = k.
Proof.
  rewrite elem_of_map_keys. unfold tagset_of_types.
  rewrite (foldl_concat (tagset_of_field tagname)), tagset_fields_lookup.
  rewrite lookup_empty. split.
  - intros [[? H]|(Hk & f & Hf & Heq)]; [discriminate|].
    split; [assumption|]. apply list_elem_of_join in Hf as (t & Hft & Ht). by exists t, f.
  - intros (Hk & t & f & Ht & Hf & Heq). right. split; [assumption|].
    exists f. split; [|assumption]. apply list_elem_of_join. by exists t.
Qed.

(** The labels of the three record kinds, in the order of [map_keys]:
    "time code1", declared on a field of each kind, is there once, and no
    field carries a tag of the role "xml". *)
Example item_labels :
  tagset_of_types "item" schema_types
  = {[ "annotation" := true; "anchor point" := true; "article" := true ]}.
Proof. apply map_eq. intros k. vm_compute. reflexivity. Qed.

Example property_labels :
  map_keys (tagset_of_types "property" schema_types)
  = [ "Wikidata item code"; "ScienceSource article title"; "character number";
      "instance of"; "anchors"; "anchor point in"; "article text title";
      "following anchor point"; "following phrase"; "length of term found";
      "term found"; "time code1"; "distance to following"; "distance to preceding";
      "dictionary name"; "publication date"; "page ID"; "preceding anchor point";
      "preceding phrase" ].
Proof. vm_compute. reflexivity. Qed.

Example no_xml_labels : map_keys (tagset_of_types "xml" schema_types) = [].
Proof. vm_compute. reflexivity. Qed.

Section TagRegistry.

Variable range_keys : gmap string bool -> list string.
Hypothesis range_keys_perm : forall m, range_keys m ≡ₚ map_keys m.

Lemma elem_of_getValuesForTagsOf (types : list (list StructField)) (tagname k : string) :
  k ∈ getValuesForTagsOf range_keys types tagname <->
  k <> "" /\ exists t f, t ∈ types /\ f ∈ t /\ Tag_Get (Tag f) tagname = k.
Proof.
  unfold getValuesForTagsOf. rewrite (range_keys_perm _). apply elem_of_tagset.
Qed.

Lemma NoDup_getValuesForTagsOf (types : list (list StructField)) (tagname : string) :
  NoDup (getValuesForTagsOf range_keys types tagname).
Proof.
  unfold getValuesForTagsOf. rewrite (range_keys_perm _).
  apply NoDup_fst_map_to_list.
Qed.

(** C4.  For every tag name, [getValuesForTags] returns a list without
    duplicates, whatever fields and record kinds declare a label (the same
    holds over any array of types), and over types none of whose fields
    carries the tag it returns the empty list. *)
Theorem getValuesForTags_no_duplicates (tagname : string) :
  NoDup (getValuesForTags range_keys tagname) /\
  (forall types, NoDup (getValuesForTagsOf range_keys types tagname)) /\
  (forall types,
      (forall t f, t ∈ types -> f ∈ t -> Tag_Get (Tag f) tagname = "") ->
      getValuesForTagsOf range_keys types tagname = []).
Proof.
  split; [apply NoDup_getValuesForTagsOf|].
  split; [intros types; apply NoDup_getValuesForTagsOf|].
  intros types Hnone.
  destruct (getValuesForTagsOf range_keys types tagname) as [|k l] eqn:Hlist; [reflexivity|].
  assert (Hk : k ∈ getValuesForTagsOf range_keys types tagname) by (rewrite Hlist; left).
  apply elem_of_getValuesForTagsOf in Hk as (Hne & t & f & Ht & Hf & Heq).
  rewrite (Hnone t f Ht Hf) in Heq. congruence.
Qed.

(** C9.  Every label [getValuesForTags] returns is a non-empty string: it
    is the tag that some field of the three record kinds carries under
    [tagname], and a field without that tag (whose lookup gives the empty
    string) contributes nothing. *)
Theorem getValuesForTags_labels_nonempty (tagname label : string) :
  label ∈ getValuesForTags range_keys tagname ->
  label <> "" /\
  (0 < String.length label)%nat /\
  exists t f, t ∈ schema_types /\ f ∈ t /\ Tag_Get (Tag f) tagname = label.
Proof.
  intros Hin. apply elem_of_getValuesForTagsOf in Hin as (Hne & Hex).
  split; [assumption|]. split; [|assumption].
  destruct label; [congruence | simpl; lia].
Qed.

End TagRegistry.


(** ** The label resolver *)

Lemma store_all_snoc (m : gmap string string) (kvs : list (string * string))
    (k v : string) :
  store_all m (kvs ++ [(k, v)]) = <[k := v]> (store_all m kvs).
Proof. unfold store_all. rewrite foldl_app. reflexivity. Qed.

Lemma store_all_lookup_other (m : gmap string string) (kvs : list (string * string))
    (k : string) :
  k ∉ kvs.*1 -> store_all m kvs !! k = m !! k.
Proof.
  induction kvs as [|[k' v'] kvs IH] using rev_ind; [reflexivity|].
  rewrite fmap_app, not_elem_of_app. simpl. intros [Hkvs Hk'].
  rewrite store_all_snoc, lookup_insert_ne; [auto|].
  intros ->. apply Hk'. left.
Qed.

Lemma store_all_lookup_written (m : gmap string string) (kvs : list (string * string))
    (k : string) :
  k ∈ kvs.*1 -> exists v, (k, v) ∈ kvs /\ store_all m kvs !! k = Some v.
Proof.
  induction kvs as [|[k' v'] kvs IH] using rev_ind; [inversion 1|].
  rewrite fmap_app, elem_of_app, store_all_snoc. simpl. intros Hin.
  destruct (decide (k' = k)) as [->|Hne].
  - exists v'. split; [apply elem_of_app; right; left | apply lookup_insert_eq].
  - destruct Hin as [Hin|Hin].
    + destruct (IH Hin) as (v & Hv & Hlook). exists v.
      split; [apply elem_of_app; by left | by rewrite lookup_insert_ne].
    + apply list_elem_of_singleton in Hin. congruence.
Qed.

Lemma NoDup_all_equal {A : Type} (l : list A) (a : A) :
  NoDup l -> (forall x, x ∈ l -> x = a) -> a ∈ l -> l = [a].
Proof.
  intros Hnd Hall Hin. destruct l as [|x [|y l]].
  - inversion Hin.
  - f_equal. apply Hall. left.
  - exfalso. apply NoDup_cons in Hnd as [Hx _]. apply Hx.
    rewrite (Hall x), (Hall y); [left | right; left | left].
Qed.

Lemma entries_lookup (m : gmap string string) (k v : string) :
  m !! k = Some v -> entries m k = [(k, v)].
Proof.
  intros Hlook. unfold entries. apply NoDup_all_equal.
  - apply NoDup_filter, NoDup_map_to_list.
  - intros [k' v'] Hin. apply list_elem_of_filter in Hin as [Hk Hin]. simpl in Hk. subst k'.
    apply elem_of_map_to_list in Hin. congruence.
  - apply list_elem_of_filter. split; [reflexivity | by apply elem_of_map_to_list].
Qed.

(** A list that starts with [l1], all of whose elements satisfy [P], and
    is cut before an element that does not: [l1] is before the cut. *)
Lemma prefix_before_cut {A : Type} (P : A -> Prop) (l1 l2 pre post : list A) (x : A) :
  l1 ++ l2 = pre ++ x :: post -> Forall P l1 -> ~ P x -> exists mid, pre = l1 ++ mid.
Proof.
  revert pre. induction l1 as [|y l1 IH]; intros pre Heq Hall Hx.
  - by exists pre.
  - apply Forall_cons in Hall as [Hy Hall]. destruct pre as [|z pre].
    + simpl in Heq. injection Heq as -> _. contradiction.
    + simpl in Heq. injection Heq as -> Heq.
      destruct (IH pre Heq Hall Hx) as [mid ->]. by exists mid.
Qed.

Ltac split_ands :=
  repeat match goal with |- _ /\ _ => split end; first [assumption | reflexivity].

Section Resolver.

Context {bytes Server : Type}.
Variable range_keys : gmap string bool -> list string.
Variable lookup_property : string -> Server -> (string + error) * Server.
Variable lookup_item : string -> Server -> (string + error) * Server.

Local Abbreviation wcalls c := (calls (wikiDataClient c)).

Lemma aborting_run_cons (t : Role * string) (targets : list (Role * string))
    (call : Call bytes) (new : list (Call bytes)) (r : option error) :
  call_target call = Some t ->
  call_error call = None ->
  aborting_run targets new r ->
  aborting_run (t :: targets) (call :: new) r.
Proof.
  intros Htarget Hok [Htargets Hr]. split.
  - cbn [length take]. rewrite !fmap_cons, Htarget, Htargets. reflexivity.
  - destruct r as [e|].
    + destruct Hr as (pre & last & -> & Hpre & Hlast).
      exists (call :: pre), last. split; [reflexivity|]. split; [|assumption].
      by constructor.
    + destruct Hr as [Hlen Hall]. split; [simpl; by rewrite Hlen | by constructor].
Qed.

Lemma aborting_run_fail (t : Role * string) (targets : list (Role * string))
    (call : Call bytes) (e : error) :
  call_target call = Some t ->
  call_error call = Some e ->
  aborting_run (t :: targets) [call] (Some e).
Proof.
  intros Htarget Herr. split.
  - cbn [length take]. rewrite !fmap_cons, Htarget, take_0. reflexivity.
  - exists [], call. split; [reflexivity|]. split; [constructor | assumption].
Qed.

Lemma aborting_run_nil : aborting_run [] (@nil (Call bytes)) None.
Proof. repeat split. constructor. Qed.

Lemma resolve_properties_run (labels : list string) (c c' : ScienceSourceClient bytes Server)
    (r : option error) :
  resolve_properties lookup_property labels c = (r, c') ->
  exists new,
    wcalls c' = wcalls c ++ new /\
    aborting_run (pair PropertyRole <$> labels) new r /\
    PropertyMap c' = store_all (PropertyMap c) (resolved PropertyRole new) /\
    ItemMap c' = ItemMap c.
Proof.
  revert c. induction labels as [|i rest IH]; intros c; simpl.
  - intros [= <- <-]. exists []. rewrite app_nil_r. repeat split. constructor.
  - unfold GetPropertyForLabel.
    destruct (lookup_property i (server (wikiDataClient c))) as [[label|err] s] eqn:Hlookup.
    + intros Hrest. destruct (IH _ Hrest) as (new & Hcalls & Hrun & Hprop & Hitem).
      simpl in *. exists (CallGetPropertyForLabel i (inl label) :: new).
      split; [by rewrite Hcalls, <- app_assoc|].
      split; [by apply aborting_run_cons|]. split; assumption.
    + intros [= <- <-]. simpl. exists [CallGetPropertyForLabel i (inr err)].
      split; [reflexivity|]. split; [by apply aborting_run_fail|]. split; reflexivity.
Qed.

Lemma resolve_items_run (labels : list string) (c c' : ScienceSourceClient bytes Server)
    (r : option error) :
  resolve_items lookup_item labels c = (r, c') ->
  exists new,
    wcalls c' = wcalls c ++ new /\
    aborting_run (pair ItemRole <$> labels) new r /\
    PropertyMap c' = PropertyMap c /\
    ItemMap c' = store_all (ItemMap c) (resolved ItemRole new).
Proof.
  revert c. induction labels as [|i rest IH]; intros c; simpl.
  - intros [= <- <-]. exists []. rewrite app_nil_r. repeat split. constructor.
  - unfold GetItemForLabel.
    destruct (lookup_item i (server (wikiDataClient c))) as [[label|err] s] eqn:Hlookup.
    + intros Hrest. destruct (IH _ Hrest) as (new & Hcalls & Hrun & Hprop & Hitem).
      simpl in *. exists (CallGetItemForLabel i (inl label) :: new).
      split; [by rewrite Hcalls, <- app_assoc|].
      split; [by apply aborting_run_cons|]. split; assumption.
    + intros [= <- <-]. simpl. exists [CallGetItemForLabel i (inr err)].
      split; [reflexivity|]. split; [by apply aborting_run_fail|]. split; reflexivity.
Qed.

(** Every call of a run is a lookup for one of its targets. *)
Lemma aborting_run_target (targets : list (Role * string)) (new : list (Call bytes))
    (r : option error) (call : Call bytes) :
  aborting_run targets new r -> call ∈ new ->
  exists t, call_target call = Some t /\ t ∈ take (length new) targets.
Proof.
  intros [Htargets _] Hin.
  apply (list_elem_of_fmap_2 call_target) in Hin. rewrite Htargets in Hin.
  apply list_elem_of_fmap in Hin as (t & Heq & Ht). by exists t.
Qed.

(** A run that ended normally went through every target. *)
Lemma aborting_run_complete (targets : list (Role * string)) (new : list (Call bytes)) :
  aborting_run targets new None ->
  call_target <$> new = Some <$> targets /\ succeeded new.
Proof.
  intros [Htargets [Hlen Hok]]. split; [|assumption].
  rewrite Htargets, Hlen, firstn_all. reflexivity.
Qed.

(** Two runs in sequence. *)
Lemma aborting_run_app (ts1 ts2 : list (Role * string)) (new1 new2 : list (Call bytes))
    (r : option error) :
  aborting_run ts1 new1 None -> aborting_run ts2 new2 r ->
  aborting_run (ts1 ++ ts2) (new1 ++ new2) r.
Proof.
  intros [Ht1 [Hlen1 Hok1]] [Ht2 Hr2]. split.
  - rewrite fmap_app, length_app, Ht1, Ht2, Hlen1, firstn_all.
    rewrite take_app_add', fmap_app by reflexivity. reflexivity.
  - destruct r as [e|].
    + destruct Hr2 as (pre & last & -> & Hpre & Hlast).
      exists (new1 ++ pre), last. rewrite app_assoc. split; [reflexivity|].
      split; [by apply Forall_app | assumption].
    + destruct Hr2 as [Hlen2 Hok2]. rewrite !length_app, Hlen1, Hlen2.
      split; [reflexivity | by apply Forall_app].
Qed.

Lemma aborting_run_stopped (ts1 ts2 : list (Role * string)) (new1 : list (Call bytes))
    (e : error) :
  aborting_run ts1 new1 (Some e) -> aborting_run (ts1 ++ ts2) new1 (Some e).
Proof.
  intros [Ht1 Hr]. split; [|assumption].
  rewrite Ht1. f_equal. rewrite take_app_le; [reflexivity|].
  apply (f_equal length) in Ht1. rewrite !length_fmap, length_take in Ht1. lia.
Qed.

Local Abbreviation run := (GetPropertyAndItemConfigurationFromServer range_keys lookup_property lookup_item).

(** The run of the whole function, loop by loop. *)
Lemma resolution_run_loops (c c' : ScienceSourceClient bytes Server) (r : option error) :
  run c = (r, c') ->
  exists new1 new2 r1,
    wcalls c' = wcalls c ++ new1 ++ new2 /\
    aborting_run (pair PropertyRole <$> getValuesForTags range_keys "property") new1 r1 /\
    PropertyMap c' = store_all (PropertyMap c) (resolved PropertyRole new1) /\
    match r1 with
    | Some e => r = Some e /\ new2 = [] /\ ItemMap c' = ItemMap c
    | None =>
        aborting_run (pair ItemRole <$> getValuesForTags range_keys "item") new2 r /\
        ItemMap c' = store_all (ItemMap c) (resolved ItemRole new2)
    end.
Proof.
  unfold GetPropertyAndItemConfigurationFromServer.
  destruct (resolve_properties _ _ c) as [r1 c1] eqn:Hloop1.
  apply resolve_properties_run in Hloop1 as (new1 & Hcalls1 & Hrun1 & Hprop1 & Hitem1).
  destruct r1 as [e1|].
  - intros [= <- <-]. exists new1, [], (Some e1). rewrite app_nil_r. split_ands.
  - destruct (resolve_items _ _ c1) as [r2 c2] eqn:Hloop2.
    apply resolve_items_run in Hloop2 as (new2 & Hcalls2 & Hrun2 & Hprop2 & Hitem2).
    intros Heq. assert (r2 = r /\ c2 = c') as [-> ->] by (destruct r2; by inversion Heq).
    exists new1, new2, None. rewrite Hcalls2, Hcalls1, Hprop2, Hitem2, Hitem1, <- app_assoc. split_ands.
Qed.

Lemma call_resolved_Some (role : Role) (call : Call bytes) (k id : string) :
  call_resolved role call = Some (k, id) <-> call = lookup_call role k (inl id).
Proof.
  split.
  - destruct role, call as [l [i|e]|l [i|e]|t d res]; simpl; intros [= -> ->]; reflexivity.
  - intros ->. by destruct role.
Qed.

Lemma elem_of_resolved (role : Role) (cs : list (Call bytes)) (k id : string) :
  (k, id) ∈ resolved role cs <-> lookup_call role k (inl id) ∈ cs.
Proof.
  unfold resolved. rewrite list_elem_of_omap. split.
  - intros (call & Hin & Hres). apply call_resolved_Some in Hres. by subst call.
  - intros Hin. eexists. split; [exact Hin|]. by apply call_resolved_Some.
Qed.

Lemma successful_lookup (role : Role) (k : string) (call : Call bytes) :
  call_target call = Some (role, k) -> call_error call = None ->
  exists id, call = lookup_call role k (inl id).
Proof.
  destruct call as [l [i|e]|l [i|e]|t d res]; simpl; try discriminate;
    intros [= <- <-] _; by eexists.
Qed.

Lemma resolved_other_role (role role' : Role) (labels : list string)
    (new : list (Call bytes)) (r : option error) :
  aborting_run (pair role <$> labels) new r -> role' <> role -> resolved role' new = [].
Proof.
  intros Hrun Hne.
  destruct (resolved role' new) as [|[k id] l] eqn:Hres; [reflexivity|].
  assert (Hin : (k, id) ∈ resolved role' new) by (rewrite Hres; left).
  apply elem_of_resolved in Hin.
  destruct (aborting_run_target _ _ _ _ Hrun Hin) as (t & Htarget & Ht).
  apply subseteq_take in Ht.
  apply list_elem_of_fmap in Ht as (label & -> & _).
  destruct role'; simpl in Htarget; congruence.
Qed.

(** What the successful lookups of a run leave in a map: an entry for
    each label they resolved, every other key as it was. *)
Lemma resolved_entries (role : Role) (ts : list (Role * string)) (cs : list (Call bytes))
    (m : gmap string string) :
  succeeded cs -> call_target <$> cs = Some <$> ts ->
  (forall k, (role, k) ∈ ts ->
     exists id, lookup_call role k (inl id) ∈ cs /\
                store_all m (resolved role cs) !! k = Some id) /\
  (forall k, (role, k) ∉ ts -> store_all m (resolved role cs) !! k = m !! k).
Proof.
  intros Hok Htargets. split.
  - intros k Hk.
    assert (Hcall : exists call, call ∈ cs /\ call_target call = Some (role, k)).
    { apply (list_elem_of_fmap_2 Some) in Hk. rewrite <- Htargets in Hk.
      apply list_elem_of_fmap in Hk as (call & Heq & Hin). by exists call. }
    destruct Hcall as (call & Hin & Htarget).
    destruct (successful_lookup role k call Htarget) as [id0 ->].
    { unfold succeeded in Hok. rewrite Forall_forall in Hok. by apply Hok. }
    apply elem_of_resolved in Hin.
    destruct (store_all_lookup_written m (resolved role cs) k) as (id & Hid & Hlook).
    { apply list_elem_of_fmap. by exists (k, id0). }
    exists id. split; [by apply elem_of_resolved | assumption].
  - intros k Hk. apply store_all_lookup_other. intros Hin. apply Hk.
    apply list_elem_of_fmap in Hin as ([k' id] & -> & Hin). simpl.
    apply elem_of_resolved in Hin.
    apply (list_elem_of_fmap_2 call_target) in Hin. rewrite Htargets in Hin.
    apply list_elem_of_fmap in Hin as (t & Heq & Ht).
    destruct role; simpl in Heq; injection Heq as <-; assumption.
Qed.

(** The run of the whole function. *)
Lemma resolution_run (c c' : ScienceSourceClient bytes Server) (r : option error) :
  run c = (r, c') ->
  exists new,
    wcalls c' = wcalls c ++ new /\
    aborting_run (lookups_in_order range_keys) new r /\
    PropertyMap c' = store_all (PropertyMap c) (resolved PropertyRole new) /\
    ItemMap c' = store_all (ItemMap c) (resolved ItemRole new).
Proof.
  intros Hrun.
  destruct (resolution_run_loops c c' r Hrun) as (new1 & new2 & r1 & Hcalls & Hrun1 & Hprop & Hr1).
  exists (new1 ++ new2). split; [assumption|].
  assert (Hitems1 : resolved ItemRole new1 = [])
    by (eapply resolved_other_role; [exact Hrun1 | discriminate]).
  unfold resolved in *. rewrite !omap_app, Hitems1. simpl.
  destruct r1 as [e1|].
  - destruct Hr1 as (-> & -> & Hitem). rewrite !app_nil_r. simpl.
    split; [by apply aborting_run_stopped|]. split; assumption.
  - destruct Hr1 as [Hrun2 Hitem].
    assert (Hprops2 : resolved PropertyRole new2 = [])
      by (eapply resolved_other_role; [exact Hrun2 | discriminate]).
    unfold resolved in Hprops2. rewrite Hprops2, app_nil_r.
    split; [by apply aborting_run_app|]. split; assumption.
Qed.

(** A failed call of a run is its last call. *)
Lemma failed_call_is_last (pre post pre' : list (Call bytes)) (call last : Call bytes)
    (e : error) :
  pre ++ call :: post = pre' ++ [last] -> succeeded pre' -> call_error call = Some e ->
  post = [] /\ pre = pre' /\ call = last.
Proof.
  intros Heq Hok Herr.
  destruct post as [|x post _] using rev_ind.
  - apply app_inj_tail in Heq as [-> ->]. auto.
  - rewrite app_comm_cons, app_assoc in Heq. apply app_inj_tail in Heq as [<- _].
    unfold succeeded in Hok. rewrite Forall_forall in Hok. rewrite Hok in Herr; [discriminate|].
    apply elem_of_app. right. left.
Qed.

Lemma aborting_run_role (role : Role) (labels : list string) (new : list (Call bytes))
    (r : option error) (call : Call bytes) :
  aborting_run (pair role <$> labels) new r -> call ∈ new ->
  exists label, call_target call = Some (role, label).
Proof.
  intros Hrun Hin. destruct (aborting_run_target _ _ _ _ Hrun Hin) as (t & Htarget & Ht).
  apply subseteq_take in Ht. apply list_elem_of_fmap in Ht as (label & -> & _).
  by exists label.
Qed.

(** The two phases of a run: the property lookups come first; an item
    lookup is made only after every property lookup has succeeded; with
    no item lookup, [ItemMap] is as it was. *)
Lemma resolution_phases (c c' : ScienceSourceClient bytes Server) (r : option error)
    (new : list (Call bytes)) :
  run c = (r, c') -> wcalls c' = wcalls c ++ new ->
  exists new1 new2,
    new = new1 ++ new2 /\
    Forall (fun call => exists l, call_target call = Some (PropertyRole, l)) new1 /\
    Forall (fun call => exists l, call_target call = Some (ItemRole, l)) new2 /\
    (new2 <> [] ->
       succeeded new1 /\
       call_target <$> new1 =
         Some <$> (pair PropertyRole <$> getValuesForTags range_keys "property")) /\
    (new2 = [] -> ItemMap c' = ItemMap c).
Proof.
  intros Hrun Hcalls.
  destruct (resolution_run_loops c c' r Hrun) as (new1 & new2 & r1 & Hcalls' & Hrun1 & _ & Hr1).
  rewrite Hcalls in Hcalls'. apply app_inv_head in Hcalls'.
  exists new1, new2. split; [assumption|].
  split; [apply Forall_forall; intros call; by apply (aborting_run_role _ _ _ _ _ Hrun1)|].
  destruct r1 as [e1|].
  - destruct Hr1 as (_ & -> & Hitem). split; [constructor|]. split; [congruence | auto].
  - destruct Hr1 as [Hrun2 Hitem].
    split; [apply Forall_forall; intros call; by apply (aborting_run_role _ _ _ _ _ Hrun2)|].
    split.
    + intros _. destruct (aborting_run_complete _ _ Hrun1). auto.
    + intros ->. by rewrite Hitem.
Qed.

Lemma take_snoc_targets (pre : list (Call bytes)) (last : Call bytes)
    (targets : list (Role * string)) :
  call_target <$> pre ++ [last] = Some <$> take (length (pre ++ [last])) targets ->
  call_target <$> pre = Some <$> take (length pre) targets.
Proof.
  intros Heq. apply (f_equal (take (length pre))) in Heq.
  rewrite fmap_app, take_app_length' in Heq by (by rewrite length_fmap).
  rewrite Heq, <- fmap_take, take_take, length_app. f_equal. f_equal. simpl. lia.
Qed.

(** C2 (amended).  When the lookup number N fails, with [pre] the N-1
    calls before it in this run: the function returns a non-nil error,
    which is exactly the error of that lookup; no call follows it; the
    calls made are those for the first N labels, in order; and when the
    failed lookup is a property lookup, no item lookup was made. *)
Theorem failed_lookup_aborts_resolution (c c' : ScienceSourceClient bytes Server)
    (r : option error) (pre post : list (Call bytes)) (call : Call bytes) (e : error) :
  GetPropertyAndItemConfigurationFromServer range_keys lookup_property lookup_item c
    = (r, c') ->
  calls (wikiDataClient c') = calls (wikiDataClient c) ++ pre ++ call :: post ->
  call_error call = Some e ->
  r = Some e /\
  post = [] /\
  call_target <$> pre ++ [call]
    = Some <$> take (S (length pre)) (lookups_in_order range_keys) /\
  (forall label, call_target call = Some (PropertyRole, label) ->
     forall c0 l, c0 ∈ pre -> call_target c0 <> Some (ItemRole, l)).
Proof.
  intros Hrun Hcalls Herr.
  destruct (resolution_run c c' r Hrun) as (new & Hcalls' & [Htargets Hr] & _).
  assert (Hnew : new = pre ++ call :: post)
    by (rewrite Hcalls in Hcalls'; by apply app_inv_head in Hcalls').
  destruct r as [e'|].
  2:{ destruct Hr as [_ Hok]. unfold succeeded in Hok. rewrite Forall_forall in Hok.
      rewrite Hok in Herr; [discriminate|]. rewrite Hnew. apply elem_of_app. right. left. }
  destruct Hr as (pre' & last & Hsplit & Hpre' & Hlast).
  rewrite Hnew in Hsplit.
  destruct (failed_call_is_last _ _ _ _ _ _ Hsplit Hpre' Herr) as (-> & <- & <-).
  split; [congruence|]. split; [reflexivity|]. split.
  - rewrite Hnew in Htargets. rewrite Htargets, length_app. simpl.
    by rewrite Nat.add_1_r.
  - intros label Hproperty c0 l Hc0 Hitem.
    destruct (resolution_phases c c' (Some e') (pre ++ [call]) Hrun Hcalls)
      as (new1 & new2 & Hsplit' & Hprops & Hitems & _ & _).
    destruct new2 as [|x new2 _] using rev_ind.
    + rewrite app_nil_r in Hsplit'. subst new1. rewrite Forall_forall in Hprops.
      destruct (Hprops c0) as [l' Hl']; [apply elem_of_app; by left | congruence].
    + rewrite app_assoc in Hsplit'. apply app_inj_tail in Hsplit' as [_ ->].
      rewrite Forall_forall in Hitems.
      destruct (Hitems x) as [l' Hl']; [apply elem_of_app; right; left | congruence].
Qed.

Lemma resolved_snoc_failed (role : Role) (pre : list (Call bytes)) (last : Call bytes)
    (e : error) :
  call_error last = Some e -> resolved role (pre ++ [last]) = resolved role pre.
Proof.
  intros Herr. unfold resolved. rewrite omap_app. simpl.
  destruct role, last as [l [i|e0]|l [i|e0]|t d [p|e0]]; simpl in *;
    try discriminate; by rewrite app_nil_r.
Qed.

(** C3 (amended).  When the function returns a non-nil error the maps are
    not rolled back.  With [pre] the lookups that succeeded before the
    failed one, which are those for the first labels in order:
    [PropertyMap] holds, for each property label among them, the
    identifier a lookup of this run gave for it, and is as before the call
    at every other key; likewise [ItemMap] for the item labels. *)
Theorem error_keeps_resolved_entries (c c' : ScienceSourceClient bytes Server)
    (e : error) (new : list (Call bytes)) :
  GetPropertyAndItemConfigurationFromServer range_keys lookup_property lookup_item c
    = (Some e, c') ->
  calls (wikiDataClient c') = calls (wikiDataClient c) ++ new ->
  exists pre last,
    new = pre ++ [last] /\ succeeded pre /\ call_error last = Some e /\
    call_target <$> pre = Some <$> take (length pre) (lookups_in_order range_keys) /\
    (forall k, (PropertyRole, k) ∈ take (length pre) (lookups_in_order range_keys) ->
       exists id, CallGetPropertyForLabel k (inl id) ∈ pre /\ PropertyMap c' !! k = Some id) /\
    (forall k, (PropertyRole, k) ∉ take (length pre) (lookups_in_order range_keys) ->
       PropertyMap c' !! k = PropertyMap c !! k) /\
    (forall k, (ItemRole, k) ∈ take (length pre) (lookups_in_order range_keys) ->
       exists id, CallGetItemForLabel k (inl id) ∈ pre /\ ItemMap c' !! k = Some id) /\
    (forall k, (ItemRole, k) ∉ take (length pre) (lookups_in_order range_keys) ->
       ItemMap c' !! k = ItemMap c !! k).
Proof.
  intros Hrun Hcalls.
  destruct (resolution_run c c' _ Hrun) as (new' & Hcalls' & [Htargets Hr] & Hprop & Hitem).
  assert (new' = new) as -> by (rewrite Hcalls in Hcalls'; by apply app_inv_head in Hcalls').
  destruct Hr as (pre & last & -> & Hpre & Hlast).
  apply take_snoc_targets in Htargets.
  rewrite (resolved_snoc_failed _ _ _ _ Hlast) in Hprop.
  rewrite (resolved_snoc_failed _ _ _ _ Hlast) in Hitem.
  destruct (resolved_entries PropertyRole _ pre (PropertyMap c) Hpre Htargets) as [Hp1 Hp2].
  destruct (resolved_entries ItemRole _ pre (ItemMap c) Hpre Htargets) as [Hi1 Hi2].
  exists pre, last. rewrite Hprop, Hitem. split_ands.
Qed.

(** C5.  When the function returns nil, every label that [getValuesForTags]
    gives for the role "property" has exactly one entry in [PropertyMap],
    holding the identifier a lookup of this run gave for it, and every
    label it gives for the role "item" has exactly one entry in
    [ItemMap]. *)
Theorem success_resolves_every_label (c c' : ScienceSourceClient bytes Server) :
  GetPropertyAndItemConfigurationFromServer range_keys lookup_property lookup_item c
    = (None, c') ->
  exists new,
    calls (wikiDataClient c') = calls (wikiDataClient c) ++ new /\
    (forall label, label ∈ getValuesForTags range_keys "property" ->
       exists id, CallGetPropertyForLabel label (inl id) ∈ new /\
                  PropertyMap c' !! label = Some id /\
                  entries (PropertyMap c') label = [(label, id)]) /\
    (forall label, label ∈ getValuesForTags range_keys "item" ->
       exists id, CallGetItemForLabel label (inl id) ∈ new /\
                  ItemMap c' !! label = Some id /\
                  entries (ItemMap c') label = [(label, id)]).
Proof.
  intros Hrun.
  destruct (resolution_run c c' _ Hrun) as (new & Hcalls & Hrun' & Hprop & Hitem).
  apply aborting_run_complete in Hrun' as [Htargets Hok].
  destruct (resolved_entries PropertyRole _ new (PropertyMap c) Hok Htargets) as [Hp _].
  destruct (resolved_entries ItemRole _ new (ItemMap c) Hok Htargets) as [Hi _].
  exists new. split; [assumption|]. rewrite Hprop, Hitem. split.
  - intros label Hin. destruct (Hp label) as (id & Hcall & Hlook).
    { apply elem_of_app. left. by apply list_elem_of_fmap_2. }
    exists id. split; [assumption|]. split; [assumption | by apply entries_lookup].
  - intros label Hin. destruct (Hi label) as (id & Hcall & Hlook).
    { apply elem_of_app. right. by apply list_elem_of_fmap_2. }
    exists id. split; [assumption|]. split; [assumption | by apply entries_lookup].
Qed.

(** C10.  In every run: when a property lookup fails, [ItemMap] is
    exactly as before the call and no item lookup was made; and an item
    lookup, which comes before any write to [ItemMap], is made only after
    a successful lookup of every property label. *)
Theorem property_failure_leaves_ItemMap (c c' : ScienceSourceClient bytes Server)
    (r : option error) (new : list (Call bytes)) :
  GetPropertyAndItemConfigurationFromServer range_keys lookup_property lookup_item c
    = (r, c') ->
  calls (wikiDataClient c') = calls (wikiDataClient c) ++ new ->
  (forall call label e,
     call ∈ new -> call_target call = Some (PropertyRole, label) ->
     call_error call = Some e ->
     ItemMap c' = ItemMap c /\
     forall c0 l, c0 ∈ new -> call_target c0 <> Some (ItemRole, l)) /\
  (forall pre call post l,
     new = pre ++ call :: post -> call_target call = Some (ItemRole, l) ->
     forall label, label ∈ getValuesForTags range_keys "property" ->
     exists id, CallGetPropertyForLabel label (inl id) ∈ pre).
Proof.
  intros Hrun Hcalls.
  destruct (resolution_phases c c' r new Hrun Hcalls)
    as (new1 & new2 & -> & Hprops & Hitems & Hfull & Hnone).
  split.
  - intros call label e Hin Htarget Herr.
    assert (Hnew2 : new2 = []).
    { destruct new2 as [|x new2]; [reflexivity|]. exfalso.
      destruct Hfull as [Hok _]; [discriminate|].
      apply elem_of_app in Hin as [Hin|Hin].
      - unfold succeeded in Hok. rewrite Forall_forall in Hok. rewrite Hok in Herr by assumption.
        discriminate.
      - rewrite Forall_forall in Hitems. destruct (Hitems call Hin) as [l' Hl']. congruence. }
    subst new2. split; [by apply Hnone|].
    intros c0 l Hc0 Hitem. rewrite app_nil_r in Hc0.
    rewrite Forall_forall in Hprops. destruct (Hprops c0 Hc0) as [l' Hl']. congruence.
  - intros pre call post l Hsplit Htarget label Hlabel.
    assert (Hnew2 : new2 <> []).
    { intros ->. rewrite app_nil_r in Hsplit. subst new1.
      rewrite Forall_forall in Hprops. destruct (Hprops call) as [l' Hl'].
      - apply elem_of_app. right. left.
      - congruence. }
    destruct (Hfull Hnew2) as [Hok Htargets].
    destruct (prefix_before_cut _ _ _ _ _ _ Hsplit Hprops) as [mid ->].
    { intros [l' Hl']. congruence. }
    destruct (resolved_entries PropertyRole _ new1 ∅ Hok Htargets) as [Hp _].
    destruct (Hp label) as (id & Hcall & _); [by apply list_elem_of_fmap_2|].
    exists id. apply elem_of_app. by left.
Qed.

End Resolver.

(** ** The article upload *)

Section Upload.

Context {bytes Server : Type}.
Variable create_article : string -> bytes -> Server -> (Z + error) * Server.

(** C7.  [UploadPaper] makes one [CreateArticle] call, with the article's
    title and the content of the file.  When the call succeeds the
    function returns nil and the article is the one it was given with
    [PageID] set to the page identifier the call returned.  When the file
    cannot be read, or the call fails, the function returns that very
    error and the article is exactly as it was. *)
Theorem UploadPaper_outcome (c : ScienceSourceClient bytes Server)
    (article : ScienceSourceArticle) (htmlFileName : string) (fs : FileSystem bytes) :
  (forall data page_id s,
     ioutil_ReadFile htmlFileName fs = inl data ->
     create_article (Article.ScienceSourceArticleTitle article) data
       (server (wikiDataClient c)) = (inl page_id, s) ->
     UploadPaper create_article c article htmlFileName fs =
       (None,
        {| wikiDataClient :=
             record_call
               (CallCreateArticle (Article.ScienceSourceArticleTitle article) data
                  (inl page_id)) s (wikiDataClient c);
           PropertyMap := PropertyMap c;
           ItemMap := ItemMap c |},
        {| Article.Item := Article.Item article;
           Article.WikiDataItemCode := Article.WikiDataItemCode article;
           Article.ArticleTextTitle := Article.ArticleTextTitle article;
           Article.PublicationDate := Article.PublicationDate article;
           Article.TimeCode := Article.TimeCode article;
           Article.CharacterNumber := Article.CharacterNumber article;
           Article.PrecedingPhrase := Article.PrecedingPhrase article;
           Article.FollowingPhrase := Article.FollowingPhrase article;
           Article.InstanceOf := Article.InstanceOf article;
           Article.ScienceSourceArticleTitle := Article.ScienceSourceArticleTitle article;
           Article.PageID := page_id;
           Article.FollowingAnchorPoint := Article.FollowingAnchorPoint article;
           Article.Annotations := Article.Annotations article |})) /\
  (forall err,
     ioutil_ReadFile htmlFileName fs = inr err ->
     UploadPaper create_article c article htmlFileName fs = (Some err, c, article)) /\
  (forall data upload_error s,
     ioutil_ReadFile htmlFileName fs = inl data ->
     create_article (Article.ScienceSourceArticleTitle article) data
       (server (wikiDataClient c)) = (inr upload_error, s) ->
     UploadPaper create_article c article htmlFileName fs =
       (Some upload_error,
        {| wikiDataClient :=
             record_call
               (CallCreateArticle (Article.ScienceSourceArticleTitle article) data
                  (inr upload_error)) s (wikiDataClient c);
           PropertyMap := PropertyMap c;
           ItemMap := ItemMap c |},
        article)) /\
  (forall err c' article',
     UploadPaper create_article c article htmlFileName fs = (Some err, c', article') ->
     article' = article).
Proof.
  unfold UploadPaper, CreateArticle. split; [|split; [|split]].
  - intros data page_id s -> ->. by destruct article.
  - by intros err ->.
  - by intros data upload_error s -> ->.
  - intros err c' article'. destruct (ioutil_ReadFile htmlFileName fs) as [data|e].
    + destruct (create_article _ data _) as [[page_id|e] s]; by intros [= _ _ <-].
    + by intros [= _ _ <-].
Qed.

End Upload.

(** ** Persistence *)

Section Persistence.

Context {bytes : Type}.
Variable no_bytes : bytes.
Variable json_text : json -> bytes.
Variable json_scan : bytes -> json + error.

(** C8 (amended).  [Save] returns the error of [os.Create] when the file
    cannot be created and the error of the write when the text cannot be
    written, it returns nil exactly when neither failed, and in every case
    the article it was given is unchanged.
    [LoadScienceSourceArticle] returns a nil
    pointer and the error of [os.Open] when the file cannot be opened,
    which includes a file that does not exist; when the file opens and
    cannot be read it returns the error of the read, with a pointer to an
    article that is still the zero value. *)
Theorem persistence_failure_is_surfaced (article : ScienceSourceArticle)
    (filename : string) (fs : FileSystem bytes) :
  (forall err,
     fault fs OpCreate filename = Some err ->
     Save no_bytes json_text article filename fs = (Some err, article, fs)) /\
  (forall err,
     fault fs OpCreate filename = None -> fault fs OpWrite filename = Some err ->
     exists fs', Save no_bytes json_text article filename fs = (Some err, article, fs')) /\
  (forall article' fs',
     Save no_bytes json_text article filename fs = (None, article', fs') ->
     fault fs OpCreate filename = None /\ fault fs OpWrite filename = None /\
     files fs' !! filename = Some (json_text (Marshal article))) /\
  (fault fs OpCreate filename = None -> fault fs OpWrite filename = None ->
     exists fs', Save no_bytes json_text article filename fs = (None, article, fs')) /\
  (forall r article' fs',
     Save no_bytes json_text article filename fs = (r, article', fs') ->
     article' = article) /\
  (forall err,
     os_Open filename fs = inr err ->
     LoadScienceSourceArticle json_scan filename fs = (None, Some err)) /\
  (forall err,
     fault fs OpOpen filename = Some err ->
     LoadScienceSourceArticle json_scan filename fs = (None, Some err)) /\
  (files fs !! filename = None ->
     exists err, LoadScienceSourceArticle json_scan filename fs = (None, Some err)) /\
  (forall f err,
     os_Open filename fs = inl f -> fault fs OpRead f = Some err ->
     LoadScienceSourceArticle json_scan filename fs = (Some zero_Article, Some err)).
Proof.
  repeat match goal with |- _ /\ _ => split end;
    unfold Save, Encode, os_Create, file_Write, LoadScienceSourceArticle; simpl.
  - by intros err ->.
  - intros err -> Hwrite. simpl. rewrite Hwrite. by eexists.
  - intros article' fs'. destruct (fault fs OpCreate filename); [discriminate|]. simpl.
    destruct (fault fs OpWrite filename); [discriminate|]. intros [= <- <-]. simpl.
    by rewrite lookup_insert_eq.
  - intros -> Hwrite. simpl. rewrite Hwrite. by eexists.
  - intros r article' fs'. destruct (fault fs OpCreate filename); [by intros [= _ <- _]|].
    simpl. destruct (fault fs OpWrite filename); by intros [= _ <- _].
  - by intros err ->.
  - unfold os_Open. by intros err ->.
  - unfold os_Open. intros ->. destruct (fault fs OpOpen filename); by eexists.
  - intros f err -> Hread. unfold Decode, file_ReadAll. by rewrite Hread.
Qed.

(** What [LoadScienceSourceArticle] returns for a file that [Save] wrote,
    when the text that was written scans back to the document. *)
Lemma Load_after_Save (article article' : ScienceSourceArticle) (filename : string)
    (fs fs' : FileSystem bytes) :
  json_scan (json_text (Marshal article)) = inl (Marshal article) ->
  ints_Article article = true ->
  Save no_bytes json_text article filename fs = (None, article', fs') ->
  fault fs OpOpen filename = None ->
  fault fs OpRead filename = None ->
  LoadScienceSourceArticle json_scan filename fs' = (Some (coerce_Article article), None).
Proof.
  intros Hscan Hints Hsave Hopen Hread.
  unfold Save, Encode, os_Create, file_Write in Hsave.
  destruct (fault fs OpCreate filename); [discriminate|]. simpl in Hsave.
  destruct (fault fs OpWrite filename); [discriminate|]. injection Hsave as _ <-.
  unfold LoadScienceSourceArticle, os_Open, Decode, file_ReadAll. simpl.
  rewrite Hopen, lookup_insert_eq. simpl.
  rewrite Hread, lookup_insert_eq, Hscan, (Unmarshal_Marshal article Hints).
  reflexivity.
Qed.

Hypothesis json_scan_text :
  forall a, json_scan (json_text (Marshal a)) = inl (Marshal a).

(** C1 (amended).  For every article whose strings are valid UTF-8 (its
    ints being Go ints), with any sequence of anchor points, also a nil or
    an empty one, and any values in the fields filled in after upload:
    when [Save] has written the article to a file, and the file can be
    opened and read, [LoadScienceSourceArticle] returns nil as error and an
    article equal to the one saved, field by field and anchor point by
    anchor point in the same order. *)
Theorem save_then_load_valid_utf8 (article article' : ScienceSourceArticle)
    (filename : string) (fs fs' : FileSystem bytes) :
  utf8_Article article = true ->
  ints_Article article = true ->
  Save no_bytes json_text article filename fs = (None, article', fs') ->
  fault fs OpOpen filename = None ->
  fault fs OpRead filename = None ->
  LoadScienceSourceArticle json_scan filename fs' = (Some article, None).
Proof.
  intros Hutf8 Hints Hsave Hopen Hread.
  rewrite (Load_after_Save article article' filename fs fs' (json_scan_text article)
             Hints Hsave Hopen Hread).
  by rewrite (coerce_Article_valid article Hutf8).
Qed.

End Persistence.

(** ** The chain of anchor points *)

Lemma set_neighbours_fields (preceding following : string) (p : ScienceSourceAnchorPoint) :
  AnchorPoint.PrecedingAnchorPoint (set_neighbours preceding following p) = preceding /\
  AnchorPoint.FollowingAnchorPoint (set_neighbours preceding following p) = following /\
  AnchorPoint.ScienceSourceItemID (set_neighbours preceding following p)
    = AnchorPoint.ScienceSourceItemID p.
Proof. by destruct p. Qed.

(** The point at position [i] of a linked chain: the point at that
    position before the linking, with the identifier of the point before
    it (or [preceding]) and of the point after it (or [terminus]). *)
Lemma link_chain_lookup (preceding terminus : string) (l : list ScienceSourceAnchorPoint)
    (i : nat) (A : ScienceSourceAnchorPoint) :
  link_chain preceding terminus l !! i = Some A ->
  exists p,
    l !! i = Some p /\
    A = set_neighbours
          match i with
          | O => preceding
          | S j => from_option AnchorPoint.ScienceSourceItemID preceding (l !! j)
          end
          (from_option AnchorPoint.ScienceSourceItemID terminus (l !! S i))
          p.
Proof.
  revert preceding i. induction l as [|p l IH]; intros preceding i; [inversion 1|].
  destruct i as [|i]; cbn [link_chain lookup list_lookup].
  - intros [= <-]. exists p. split; [reflexivity|]. by destruct l.
  - intros Hi. destruct (IH _ _ Hi) as (q & Hq & ->). exists q. split; [assumption|].
    destruct i as [|j]; [reflexivity|]. cbn [lookup list_lookup].
    destruct (l !! j) eqn:Hj; [reflexivity|].
    apply lookup_ge_None in Hj. apply lookup_lt_Some in Hq. lia.
Qed.

Lemma link_chain_length (preceding terminus : string) (l : list ScienceSourceAnchorPoint) :
  length (link_chain preceding terminus l) = length l.
Proof.
  revert preceding. induction l as [|p l IH]; intros preceding; simpl; [reflexivity|].
  by rewrite IH.
Qed.

(** C6.  An article that has reached the Linked state: every anchor point
    refers to the identifier of the next one as its following anchor
    point, and the next one refers back to it as its preceding anchor
    point; the first anchor point's preceding reference and the last
    one's following reference are the two terminus markers. *)
Theorem linked_chain_is_consistent (before after : string) (s s' : Submission) :
  link before after s = Some s' ->
  stage s' = Linked /\
  forall l', Article.Annotations (submitted s') = Some l' ->
    (forall i A B, l' !! i = Some A -> l' !! S i = Some B ->
       AnchorPoint.FollowingAnchorPoint A = AnchorPoint.ScienceSourceItemID B /\
       AnchorPoint.PrecedingAnchorPoint B = AnchorPoint.ScienceSourceItemID A) /\
    (forall A, l' !! 0%nat = Some A -> AnchorPoint.PrecedingAnchorPoint A = before) /\
    (forall A, last l' = Some A -> AnchorPoint.FollowingAnchorPoint A = after).
Proof.
  unfold link. destruct (stage s); try discriminate. intros [= <-]. simpl.
  split; [reflexivity|]. intros l'.
  destruct (submitted s) as [item wd title date time ch pp fp inst sstitle page fa [l|]];
    simpl; [|discriminate].
  intros [= <-]. split; [|split].
  - intros i A B HA HB.
    apply link_chain_lookup in HA as (p & Hp & ->).
    apply link_chain_lookup in HB as (q & Hq & ->).
    destruct (set_neighbours_fields
                match i with
                | O => before
                | S j => from_option AnchorPoint.ScienceSourceItemID before (l !! j)
                end
                (from_option AnchorPoint.ScienceSourceItemID after (l !! S i)) p)
      as (_ & -> & ->).
    destruct (set_neighbours_fields
                (from_option AnchorPoint.ScienceSourceItemID before (l !! i))
                (from_option AnchorPoint.ScienceSourceItemID after (l !! S (S i))) q)
      as (-> & _ & ->).
    by rewrite Hp, Hq.
  - intros A HA. apply link_chain_lookup in HA as (p & _ & ->).
    apply set_neighbours_fields.
  - intros A HA. rewrite last_lookup, link_chain_length in HA.
    apply link_chain_lookup in HA as (p & Hp & ->).
    destruct (set_neighbours_fields
                match pred (length l) with
                | O => before
                | S j => from_option AnchorPoint.ScienceSourceItemID before (l !! j)
                end
                (from_option AnchorPoint.ScienceSourceItemID after (l !! S (pred (length l)))) p)
      as (_ & -> & _).
    rewrite lookup_ge_None_2; [reflexivity|].
    apply lookup_lt_Some in Hp. lia.
Qed.

(** * The theorems at concrete inputs *)

Lemma save_then_load_valid_utf8_witness :
  LoadScienceSourceArticle document_scan "article.json" saved_disk
    = (Some example_article, None).
Proof.
  apply (save_then_load_valid_utf8 JNull document_text document_scan
           (fun a => eq_refl) example_article example_article "article.json"
           empty_disk saved_disk);
    vm_compute; reflexivity.
Defined.

(** The article whose Wikidata item code is the byte 0xFF is saved without
    error, by a text layer that loses nothing, and is loaded without
    error as a different article: the code is now U+FFFD. *)
Lemma save_then_load_invalid_utf8 :
  ints_Article mangled_article = true /\
  (Save JNull document_text mangled_article "article.json" empty_disk).1
    = (None, mangled_article) /\
  LoadScienceSourceArticle document_scan "article.json"
    (Save JNull document_text mangled_article "article.json" empty_disk).2
    = (Some (coerce_Article mangled_article), None) /\
  Article.WikiDataItemCode (coerce_Article mangled_article) = replacement_char /\
  coerce_Article mangled_article <> mangled_article.
Proof.
  split; [reflexivity|]. split; [reflexivity|]. split; [vm_compute; reflexivity|].
  split; [reflexivity|]. vm_compute. discriminate.
Qed.

(** Closing the file fails and [Save] returns nil: the error of the
    deferred [f.Close()] does not reach the caller. *)
Lemma close_failure_is_not_surfaced :
  file_Close "article.json"
    (Save JNull document_text example_article "article.json" close_fails_disk).2
  = Some "close article.json: input/output error" /\
  (Save JNull document_text example_article "article.json" close_fails_disk).1
  = (None, example_article).
Proof. split; reflexivity. Qed.

(** The round trip of an article with an empty sequence of anchor points,
    and of one with none ([nil]). *)
Example empty_sequence_round_trip :
  LoadScienceSourceArticle document_scan "article.json"
    (Save JNull document_text (set_Annotations (Some []) example_article)
       "article.json" empty_disk).2
  = (Some (set_Annotations (Some []) example_article), None).
Proof. vm_compute. reflexivity. Qed.

Example nil_sequence_round_trip :
  LoadScienceSourceArticle document_scan "article.json"
    (Save JNull document_text (set_Annotations None example_article)
       "article.json" empty_disk).2
  = (Some (set_Annotations None example_article), None).
Proof. vm_compute. reflexivity. Qed.

Lemma failed_lookup_aborts_resolution_witness :
  anchors_run.1 = Some "timeout" /\
  @nil (Call json) = [] /\
  call_target <$> calls_before_anchors ++ [anchors_call]
    = Some <$> take (S (length calls_before_anchors)) (lookups_in_order map_keys) /\
  (forall label, call_target anchors_call = Some (PropertyRole, label) ->
     forall c0 l, c0 ∈ calls_before_anchors -> call_target c0 <> Some (ItemRole, l)).
Proof.
  apply (failed_lookup_aborts_resolution map_keys (times_out_on "anchors") resolves_all
           new_client anchors_run.2 anchors_run.1 calls_before_anchors [] anchors_call
           "timeout");
    vm_compute; reflexivity.
Defined.

(** Two runs that return the same error, "timeout", after a failed lookup
    of two different labels: the error does not tell which label failed. *)
Lemma returned_error_does_not_identify_label :
  anchors_run.1 = Some "timeout" /\
  term_found_run.1 = Some "timeout" /\
  last (calls (wikiDataClient anchors_run.2))
    = Some (CallGetPropertyForLabel "anchors" (inr "timeout")) /\
  last (calls (wikiDataClient term_found_run.2))
    = Some (CallGetPropertyForLabel "term found" (inr "timeout")).
Proof. vm_compute. repeat split. Qed.

Lemma error_keeps_resolved_entries_witness :
  exists pre last,
    calls (wikiDataClient anchors_run.2) = pre ++ [last] /\
    succeeded pre /\ call_error last = Some "timeout" /\
    call_target <$> pre = Some <$> take (length pre) (lookups_in_order map_keys) /\
    (forall k, (PropertyRole, k) ∈ take (length pre) (lookups_in_order map_keys) ->
       exists id, CallGetPropertyForLabel k (inl id) ∈ pre /\
                  PropertyMap anchors_run.2 !! k = Some id) /\
    (forall k, (PropertyRole, k) ∉ take (length pre) (lookups_in_order map_keys) ->
       PropertyMap anchors_run.2 !! k = PropertyMap new_client !! k) /\
    (forall k, (ItemRole, k) ∈ take (length pre) (lookups_in_order map_keys) ->
       exists id, CallGetItemForLabel k (inl id) ∈ pre /\
                  ItemMap anchors_run.2 !! k = Some id) /\
    (forall k, (ItemRole, k) ∉ take (length pre) (lookups_in_order map_keys) ->
       ItemMap anchors_run.2 !! k = ItemMap new_client !! k).
Proof.
  apply (error_keeps_resolved_entries map_keys (times_out_on "anchors") resolves_all
           new_client anchors_run.2 "timeout" (calls (wikiDataClient anchors_run.2)));
    vm_compute; reflexivity.
Defined.

(** Every property lookup succeeds and the first item lookup is refused:
    the function returns the error, and [PropertyMap], empty before the
    call, now holds the properties that were resolved. *)
Lemma error_leaves_partial_PropertyMap :
  items_refused_run.1 = Some "connection refused" /\
  PropertyMap new_client !! "term found" = None /\
  PropertyMap items_refused_run.2 !! "term found" = Some "Q-term found" /\
  PropertyMap items_refused_run.2 <> PropertyMap new_client.
Proof.
  split; [vm_compute; reflexivity|]. split; [reflexivity|].
  split; [vm_compute; reflexivity|].
  intros Heq. apply (f_equal (fun m => m !! "term found")) in Heq.
  vm_compute in Heq. discriminate.
Qed.

Lemma success_resolves_every_label_witness :
  exists new,
    calls (wikiDataClient resolved_run.2) = calls (wikiDataClient new_client) ++ new /\
    (forall label, label ∈ getValuesForTags map_keys "property" ->
       exists id, CallGetPropertyForLabel label (inl id) ∈ new /\
                  PropertyMap resolved_run.2 !! label = Some id /\
                  entries (PropertyMap resolved_run.2) label = [(label, id)]) /\
    (forall label, label ∈ getValuesForTags map_keys "item" ->
       exists id, CallGetItemForLabel label (inl id) ∈ new /\
                  ItemMap resolved_run.2 !! label = Some id /\
                  entries (ItemMap resolved_run.2) label = [(label, id)]).
Proof.
  apply (success_resolves_every_label map_keys resolves_all resolves_all new_client
           resolved_run.2).
  vm_compute. reflexivity.
Defined.

Lemma linked_chain_is_consistent_witness :
  stage linked_submission = Linked /\
  forall l', Article.Annotations (submitted linked_submission) = Some l' ->
    (forall i A B, l' !! i = Some A -> l' !! S i = Some B ->
       AnchorPoint.FollowingAnchorPoint A = AnchorPoint.ScienceSourceItemID B /\
       AnchorPoint.PrecedingAnchorPoint B = AnchorPoint.ScienceSourceItemID A) /\
    (forall A, l' !! 0%nat = Some A -> AnchorPoint.PrecedingAnchorPoint A = "Q55") /\
    (forall A, last l' = Some A -> AnchorPoint.FollowingAnchorPoint A = "Q9").
Proof.
  apply (linked_chain_is_consistent "Q55" "Q9" example_submission linked_submission).
  vm_compute. reflexivity.
Defined.

Lemma property_failure_leaves_ItemMap_witness :
  (forall call label e,
     call ∈ calls (wikiDataClient anchors_run.2) ->
     call_target call = Some (PropertyRole, label) ->
     call_error call = Some e ->
     ItemMap anchors_run.2 = ItemMap new_client /\
     forall c0 l, c0 ∈ calls (wikiDataClient anchors_run.2) ->
                  call_target c0 <> Some (ItemRole, l)) /\
  (forall pre call post l,
     calls (wikiDataClient anchors_run.2) = pre ++ call :: post ->
     call_target call = Some (ItemRole, l) ->
     forall label, label ∈ getValuesForTags map_keys "property" ->
     exists id, CallGetPropertyForLabel label (inl id) ∈ pre).
Proof.
  apply (property_failure_leaves_ItemMap map_keys (times_out_on "anchors") resolves_all
           new_client anchors_run.2 anchors_run.1 (calls (wikiDataClient anchors_run.2)));
    vm_compute; reflexivity.
Defined.

Lemma getValuesForTags_no_duplicates_witness :
  NoDup (getValuesForTags map_keys "property") /\
  (forall types, NoDup (getValuesForTagsOf map_keys types "property")) /\
  (forall types,
      (forall t f, t ∈ types -> f ∈ t -> Tag_Get (Tag f) "property" = "") ->
      getValuesForTagsOf map_keys types "property" = []).
Proof. apply (getValuesForTags_no_duplicates map_keys). intros m. reflexivity. Defined.

Lemma getValuesForTags_labels_nonempty_witness :
  "anchor point" <> "" /\
  (0 < String.length "anchor point")%nat /\
  exists t f, t ∈ schema_types /\ f ∈ t /\ Tag_Get (Tag f) "item" = "anchor point".
Proof.
  apply (getValuesForTags_labels_nonempty map_keys).
  - intros m. reflexivity.
  - vm_compute. apply list_elem_of_In. simpl. tauto.
Defined.

(** * Further properties *)

(** ** The tag registry *)

(** X1.  [getValuesForTags] misses no label: the tag that a field of one
    of the three record kinds carries under [tagname] is in the list it
    returns, unless that tag is the empty string. *)
Theorem getValuesForTags_misses_no_label
    (range_keys : gmap string bool -> list string)
    (range_keys_perm : forall m, range_keys m ≡ₚ map_keys m)
    (tagname : string) (t : list StructField) (f : StructField) :
  t ∈ schema_types -> f ∈ t -> Tag_Get (Tag f) tagname <> "" ->
  Tag_Get (Tag f) tagname ∈ getValuesForTags range_keys tagname.
Proof.
  intros Ht Hf Hne. apply (elem_of_getValuesForTagsOf range_keys range_keys_perm).
  split; [assumption|]. by exists t, f.
Qed.

Lemma getValuesForTags_misses_no_label_witness :
  Tag_Get (Tag (field "PageID" [("json", "page_id"); ("property", "page ID")])) "property"
    ∈ getValuesForTags map_keys "property".
Proof.
  apply (getValuesForTags_misses_no_label map_keys (fun m => reflexivity (map_keys m))
           "property" TypeOf_ScienceSourceArticle).
  - apply list_elem_of_In. vm_compute. tauto.
  - apply list_elem_of_In. vm_compute. tauto.
  - vm_compute. discriminate.
Defined.

(** ** The label resolver *)

Lemma store_all_dom (m : gmap string string) (kvs : list (string * string)) (k : string) :
  is_Some (m !! k) -> is_Some (store_all m kvs !! k).
Proof.
  intros Hk. destruct (decide (k ∈ kvs.*1)) as [Hin|Hout].
  - destruct (store_all_lookup_written m kvs k Hin) as (v & _ & ->). by eexists.
  - by rewrite store_all_lookup_other.
Qed.

Section ResolverFrame.

Context {bytes Server : Type}.
Variable range_keys : gmap string bool -> list string.
Variable lookup_property : string -> Server -> (string + error) * Server.
Variable lookup_item : string -> Server -> (string + error) * Server.

(** A run writes nothing under a key that is none of its targets. *)
Lemma aborting_run_other_keys (role : Role) (ts : list (Role * string))
    (new : list (Call bytes)) (r : option error) (m : gmap string string) (k : string) :
  aborting_run ts new r -> (role, k) ∉ ts ->
  store_all m (resolved role new) !! k = m !! k.
Proof.
  intros Hrun Hk. apply store_all_lookup_other. intros Hin. apply Hk.
  apply list_elem_of_fmap in Hin as ([k' id] & -> & Hin). simpl.
  apply elem_of_resolved in Hin.
  destruct (aborting_run_target _ _ _ _ Hrun Hin) as (t & Htarget & Ht).
  apply subseteq_take in Ht.
  destruct role; simpl in Htarget; injection Htarget as <-; assumption.
Qed.

Lemma elem_of_lookups_in_order (role : Role) (k : string) :
  (role, k) ∈ lookups_in_order range_keys <->
  k ∈ getValuesForTags range_keys
        match role with PropertyRole => "property" | ItemRole => "item" end.
Proof.
  unfold lookups_in_order. rewrite elem_of_app, !list_elem_of_fmap. split.
  - intros [(l & Heq & Hl)|(l & Heq & Hl)]; injection Heq as -> ->; assumption.
  - destruct role; [left | right]; by exists k.
Qed.

(** X2.  Whether it succeeds or fails, the function removes no entry from
    [PropertyMap] or [ItemMap] and leaves every key that is not a label of
    the role as it was: it only writes under the labels it resolves. *)
Theorem resolution_keeps_other_entries (c c' : ScienceSourceClient bytes Server)
    (r : option error) :
  GetPropertyAndItemConfigurationFromServer range_keys lookup_property lookup_item c
    = (r, c') ->
  (forall k, is_Some (PropertyMap c !! k) -> is_Some (PropertyMap c' !! k)) /\
  (forall k, is_Some (ItemMap c !! k) -> is_Some (ItemMap c' !! k)) /\
  (forall k, k ∉ getValuesForTags range_keys "property" ->
     PropertyMap c' !! k = PropertyMap c !! k) /\
  (forall k, k ∉ getValuesForTags range_keys "item" ->
     ItemMap c' !! k = ItemMap c !! k).
Proof.
  intros Hrun.
  destruct (resolution_run range_keys lookup_property lookup_item c c' r Hrun)
    as (new & _ & Hrun' & -> & ->).
  split; [intros k; apply store_all_dom|]. split; [intros k; apply store_all_dom|].
  split; intros k Hk; apply (aborting_run_other_keys _ _ _ _ _ _ Hrun');
    by rewrite elem_of_lookups_in_order.
Qed.

(** X3.  On a client made by [NewScienceSourceClient], a run that returns
    nil leaves [PropertyMap] with the property labels as its keys, and no
    other key, and [ItemMap] with the item labels as its keys. *)
Theorem new_client_maps_hold_exactly_the_labels (w : WikiDataClient bytes Server)
    (c' : ScienceSourceClient bytes Server) :
  GetPropertyAndItemConfigurationFromServer range_keys lookup_property lookup_item
    (NewScienceSourceClient w) = (None, c') ->
  (forall k, is_Some (PropertyMap c' !! k) <-> k ∈ getValuesForTags range_keys "property") /\
  (forall k, is_Some (ItemMap c' !! k) <-> k ∈ getValuesForTags range_keys "item").
Proof.
  intros Hrun.
  destruct (resolution_run range_keys lookup_property lookup_item _ c' None Hrun)
    as (new & _ & Hrun' & -> & ->).
  destruct (aborting_run_complete _ _ Hrun') as [Htargets Hok].
  destruct (resolved_entries PropertyRole _ new ∅ Hok Htargets) as [Hp1 Hp2].
  destruct (resolved_entries ItemRole _ new ∅ Hok Htargets) as [Hi1 Hi2].
  simpl. split; intros k; split.
  - intros Hsome. destruct (decide (k ∈ getValuesForTags range_keys "property")); [done|].
    rewrite Hp2, lookup_empty in Hsome; [by destruct Hsome|].
    by rewrite (elem_of_lookups_in_order PropertyRole).
  - intros Hk. destruct (Hp1 k) as (id & _ & ->); [|by eexists].
    by rewrite (elem_of_lookups_in_order PropertyRole).
  - intros Hsome. destruct (decide (k ∈ getValuesForTags range_keys "item")); [done|].
    rewrite Hi2, lookup_empty in Hsome; [by destruct Hsome|].
    by rewrite (elem_of_lookups_in_order ItemRole).
  - intros Hk. destruct (Hi1 k) as (id & _ & ->); [|by eexists].
    by rewrite (elem_of_lookups_in_order ItemRole).
Qed.

End ResolverFrame.

Section ResolverCalls.

Context {bytes Server : Type}.
Variable range_keys : gmap string bool -> list string.
Variable lookup_property : string -> Server -> (string + error) * Server.
Variable lookup_item : string -> Server -> (string + error) * Server.
Hypothesis range_keys_perm : forall m, range_keys m ≡ₚ map_keys m.

Lemma NoDup_lookups_in_order : NoDup (lookups_in_order range_keys).
Proof.
  unfold lookups_in_order. apply NoDup_app. split; [|split].
  - apply (NoDup_fmap_2 _). by apply NoDup_getValuesForTagsOf.
  - intros t Hp Hi. apply list_elem_of_fmap in Hp as (l & -> & _).
    apply list_elem_of_fmap in Hi as (l' & Heq & _). discriminate.
  - apply (NoDup_fmap_2 _). by apply NoDup_getValuesForTagsOf.
Qed.

(** X4.  A run that returns nil made exactly one lookup for each label,
    every one of them successful: first the property labels, then the
    item labels, each list in the order [getValuesForTags] gave it, and
    no label was looked up twice. *)
Theorem success_makes_one_lookup_per_label (c c' : ScienceSourceClient bytes Server) :
  GetPropertyAndItemConfigurationFromServer range_keys lookup_property lookup_item c
    = (None, c') ->
  exists new,
    calls (wikiDataClient c') = calls (wikiDataClient c) ++ new /\
    call_target <$> new = Some <$> lookups_in_order range_keys /\
    succeeded new /\
    NoDup (call_target <$> new) /\
    length new = (length (getValuesForTags range_keys "property")
                  + length (getValuesForTags range_keys "item"))%nat.
Proof.
  intros Hrun.
  destruct (resolution_run range_keys lookup_property lookup_item c c' None Hrun)
    as (new & Hcalls & Hrun' & _).
  destruct (aborting_run_complete _ _ Hrun') as [Htargets Hok].
  exists new. split; [assumption|]. split; [assumption|]. split; [assumption|]. split.
  - rewrite Htargets. apply (NoDup_fmap_2 _), NoDup_lookups_in_order.
  - apply (f_equal length) in Htargets. rewrite !length_fmap in Htargets.
    rewrite Htargets. unfold lookups_in_order. by rewrite length_app, !length_fmap.
Qed.

(** X5.  No run looks the empty label up: every call the function makes
    is a lookup, for the role "property" or "item", of a non-empty label
    that [getValuesForTags] gave for that role. *)
Theorem lookups_have_nonempty_labels (c c' : ScienceSourceClient bytes Server)
    (r : option error) (new : list (Call bytes)) (call : Call bytes) :
  GetPropertyAndItemConfigurationFromServer range_keys lookup_property lookup_item c
    = (r, c') ->
  calls (wikiDataClient c') = calls (wikiDataClient c) ++ new ->
  call ∈ new ->
  exists role label,
    call_target call = Some (role, label) /\
    label <> "" /\
    label ∈ getValuesForTags range_keys
              match role with PropertyRole => "property" | ItemRole => "item" end.
Proof.
  intros Hrun Hcalls Hin.
  destruct (resolution_run range_keys lookup_property lookup_item c c' r Hrun)
    as (new' & Hcalls' & Hrun' & _).
  assert (new' = new) as -> by (rewrite Hcalls in Hcalls'; by apply app_inv_head in Hcalls').
  destruct (aborting_run_target _ _ _ _ Hrun' Hin) as ([role label] & Htarget & Ht).
  apply subseteq_take in Ht.
  exists role, label. split; [assumption|].
  unfold lookups_in_order in Ht. apply elem_of_app in Ht as [Ht|Ht];
    apply list_elem_of_fmap in Ht as (l & Heq & Hl); injection Heq as -> ->;
    (split; [|assumption]);
    by apply (elem_of_getValuesForTagsOf range_keys range_keys_perm) in Hl as [Hne _].
Qed.

End ResolverCalls.

Section ResolverIgnoresMaps.

Context {bytes Server : Type}.
Variable range_keys : gmap string bool -> list string.
Variable lookup_property : string -> Server -> (string + error) * Server.
Variable lookup_item : string -> Server -> (string + error) * Server.




End ResolverIgnoresMaps.

(** ** Persistence *)

(** The width of a rune depends on the bytes of the rune only. *)
Lemma rune_width_1 (c0 : ascii) (t0 t : string) :
  rune_width (String c0 t0) = 1%nat -> rune_width (String c0 t) = 1%nat.
Proof.
  unfold rune_width. destruct (lead_size c0) as [|[|[|[|[|w]]]]]; try discriminate.
  - reflexivity.
  - destruct t0 as [|c1 t1]; [discriminate|]. destruct (second_ok c0 c1); discriminate.
  - destruct t0 as [|c1 [|c2 t2]]; try discriminate.
    destruct (second_ok c0 c1 && continuation c2); discriminate.
  - destruct t0 as [|c1 [|c2 [|c3 t3]]]; try discriminate.
    destruct (second_ok c0 c1 && continuation c2 && continuation c3); discriminate.
Qed.

Lemma rune_width_2 (c0 c1 : ascii) (t1 t : string) :
  rune_width (String c0 (String c1 t1)) = 2%nat ->
  rune_width (String c0 (String c1 t)) = 2%nat.
Proof.
  unfold rune_width. destruct (lead_size c0) as [|[|[|[|[|w]]]]]; try discriminate.
  - done.
  - destruct t1 as [|c2 t2]; [discriminate|].
    destruct (second_ok c0 c1 && continuation c2); discriminate.
  - destruct t1 as [|c2 [|c3 t3]]; try discriminate.
    destruct (second_ok c0 c1 && continuation c2 && continuation c3); discriminate.
Qed.

Lemma rune_width_3 (c0 c1 c2 : ascii) (t2 t : string) :
  rune_width (String c0 (String c1 (String c2 t2))) = 3%nat ->
  rune_width (String c0 (String c1 (String c2 t))) = 3%nat.
Proof.
  unfold rune_width. destruct (lead_size c0) as [|[|[|[|[|w]]]]]; try discriminate.
  - destruct (second_ok c0 c1); discriminate.
  - done.
  - destruct t2 as [|c3 t3]; [discriminate|].
    destruct (second_ok c0 c1 && continuation c2 && continuation c3); discriminate.
Qed.

Lemma rune_width_4 (c0 c1 c2 c3 : ascii) (t3 t : string) :
  rune_width (String c0 (String c1 (String c2 (String c3 t3)))) = 4%nat ->
  rune_width (String c0 (String c1 (String c2 (String c3 t)))) = 4%nat.
Proof.
  unfold rune_width. destruct (lead_size c0) as [|[|[|[|[|w]]]]]; try discriminate.
  - destruct (second_ok c0 c1); discriminate.
  - destruct (second_ok c0 c1 && continuation c2); discriminate.
  - done.
Qed.

Lemma ValidString_coerce_bounded (n : nat) (s : string) :
  (String.length s <= n)%nat -> ValidString (coerce_utf8 s) = true.
Proof.
  revert s. induction n as [|n IH]; intros s Hlen.
  - destruct s; [reflexivity | simpl in Hlen; lia].
  - destruct s as [|c0 t0]; [reflexivity|].
    cbn [coerce_utf8].
    destruct (rune_width (String c0 t0)) as [|[|[|[|[|w]]]]] eqn:Hw.
    + change (ValidString (coerce_utf8 t0) = true). apply IH. simpl in Hlen. lia.
    + cbn [ValidString]. rewrite (rune_width_1 _ _ _ Hw). apply IH. simpl in Hlen. lia.
    + destruct t0 as [|c1 t1].
      * change (ValidString (coerce_utf8 "") = true). reflexivity.
      * cbn [ValidString]. rewrite (rune_width_2 _ _ _ _ Hw). apply IH. simpl in Hlen. lia.
    + destruct t0 as [|c1 [|c2 t2]].
      * reflexivity.
      * change (ValidString (coerce_utf8 (String c1 "")) = true). apply IH.
        simpl in Hlen |- *. lia.
      * cbn [ValidString]. rewrite (rune_width_3 _ _ _ _ _ Hw). apply IH. simpl in Hlen. lia.
    + destruct t0 as [|c1 [|c2 [|c3 t3]]].
      * reflexivity.
      * change (ValidString (coerce_utf8 (String c1 "")) = true). apply IH.
        simpl in Hlen |- *. lia.
      * change (ValidString (coerce_utf8 (String c1 (String c2 ""))) = true). apply IH.
        simpl in Hlen |- *. lia.
      * cbn [ValidString]. rewrite (rune_width_4 _ _ _ _ _ _ Hw). apply IH.
        simpl in Hlen. lia.
    + change (ValidString (coerce_utf8 t0) = true). apply IH. simpl in Hlen. lia.
Qed.

Lemma ValidString_coerce (s : string) : ValidString (coerce_utf8 s) = true.
Proof. apply (ValidString_coerce_bounded (String.length s)). lia. Qed.

Lemma utf8_coerce_Annotation (a : ScienceSourceAnnotation) :
  utf8_Annotation (coerce_Annotation a) = true.
Proof. destruct a; simpl. by rewrite !ValidString_coerce. Qed.

Lemma utf8_coerce_AnchorPoint (p : ScienceSourceAnchorPoint) :
  utf8_AnchorPoint (coerce_AnchorPoint p) = true.
Proof.
  destruct p; cbn [coerce_AnchorPoint utf8_AnchorPoint forallb].
  by rewrite !ValidString_coerce, utf8_coerce_Annotation.
Qed.

Lemma utf8_coerce_Article (a : ScienceSourceArticle) :
  utf8_Article (coerce_Article a) = true.
Proof.
  destruct a as [item wd title date time ch pp fp inst sstitle page fa anns].
  cbn [coerce_Article utf8_Article forallb]. rewrite !ValidString_coerce. simpl.
  destruct anns as [l|]; simpl; [|reflexivity].
  induction l as [|p l IH]; simpl; [reflexivity|].
  by rewrite utf8_coerce_AnchorPoint, IH.
Qed.

Lemma ints_coerce_Article (a : ScienceSourceArticle) :
  ints_Article (coerce_Article a) = ints_Article a.
Proof.
  destruct a as [item wd title date time ch pp fp inst sstitle page fa anns].
  unfold ints_Article. simpl. f_equal.
  destruct anns as [l|]; simpl; [|reflexivity].
  induction l as [|p l IH]; simpl; [reflexivity|]. rewrite IH. f_equal.
  by destruct p as [? ? ? ? ? ? ? ? ? ? ? ? ? ? []].
Qed.

Section PersistenceMore.

Context {bytes : Type}.
Variable no_bytes : bytes.
Variable json_text : json -> bytes.
Variable json_scan : bytes -> json + error.


(** X8.  [LoadScienceSourceArticle] returns a nil pointer exactly when the
    file cannot be opened.  A file that opens and holds no JSON text gives
    the error of the scanner together with a pointer to an article that is
    the zero value. *)
Theorem Load_pointer_is_nil_only_without_file (filename : string) (fs : FileSystem bytes) :
  ((LoadScienceSourceArticle json_scan filename fs).1 = None <->
   exists err, os_Open filename fs = inr err) /\
  (forall f data err,
     os_Open filename fs = inl f -> file_ReadAll f fs = inl data ->
     json_scan data = inr err ->
     LoadScienceSourceArticle json_scan filename fs = (Some zero_Article, Some err)).
Proof.
  unfold LoadScienceSourceArticle. split.
  - destruct (os_Open filename fs) as [f|err].
    + destruct (Decode json_scan f fs zero_Article). simpl.
      split; [discriminate | by intros [err [=]]].
    + simpl. split; [by exists err | reflexivity].
  - intros f data err -> Hread Hscan. unfold Decode. by rewrite Hread, Hscan.
Qed.

(** X9.  Whatever bytes its strings hold, an article that [Save] wrote is
    loaded without error, and the article loaded has only strings that
    are valid UTF-8: the one saved, with each invalid byte replaced by
    U+FFFD.  Saving and loading it once more returns it as it is. *)
Theorem loaded_article_is_valid_utf8 (article article' : ScienceSourceArticle)
    (filename : string) (fs fs' : FileSystem bytes) :
  json_scan (json_text (Marshal article)) = inl (Marshal article) ->
  ints_Article article = true ->
  Save no_bytes json_text article filename fs = (None, article', fs') ->
  fault fs OpOpen filename = None ->
  fault fs OpRead filename = None ->
  LoadScienceSourceArticle json_scan filename fs' = (Some (coerce_Article article), None) /\
  utf8_Article (coerce_Article article) = true /\
  ints_Article (coerce_Article article) = true /\
  coerce_Article (coerce_Article article) = coerce_Article article.
Proof.
  intros Hscan Hints Hsave Hopen Hread.
  split; [by apply (Load_after_Save no_bytes json_text json_scan article article'
                      filename fs fs')|].
  split; [apply utf8_coerce_Article|]. split; [by rewrite ints_coerce_Article|].
  apply coerce_Article_valid, utf8_coerce_Article.
Qed.

End PersistenceMore.

Section UploadThenSave.

Context {bytes Server : Type}.
Variable no_bytes : bytes.
Variable json_text : json -> bytes.
Variable json_scan : bytes -> json + error.
Variable create_article : string -> bytes -> Server -> (Z + error) * Server.

Lemma utf8_set_PageID (page_id : Z) (a : ScienceSourceArticle) :
  utf8_Article (set_PageID page_id a) = utf8_Article a.
Proof. by destruct a. Qed.

Lemma ints_set_PageID (page_id : Z) (a : ScienceSourceArticle) :
  int_ok page_id = true -> ints_Article a = true ->
  ints_Article (set_PageID page_id a) = true.
Proof.
  destruct a. unfold ints_Article. simpl. rewrite !andb_true_iff.
  intros Hp [[Hch _] Hanns]. auto.
Qed.

(** X10.  The page identifier survives a save: when [UploadPaper] returns
    nil for an article and the article is then saved and loaded, the
    article loaded is the uploaded one, and its [PageID] is the identifier
    that the [CreateArticle] call returned. *)
Theorem uploaded_page_id_survives_save (c c' : ScienceSourceClient bytes Server)
    (article uploaded saved : ScienceSourceArticle) (htmlFileName filename : string)
    (fs fs' : FileSystem bytes) :
  json_scan (json_text (Marshal uploaded)) = inl (Marshal uploaded) ->
  utf8_Article article = true ->
  ints_Article article = true ->
  UploadPaper create_article c article htmlFileName fs = (None, c', uploaded) ->
  int_ok (Article.PageID uploaded) = true ->
  Save no_bytes json_text uploaded filename fs = (None, saved, fs') ->
  fault fs OpOpen filename = None ->
  fault fs OpRead filename = None ->
  LoadScienceSourceArticle json_scan filename fs' = (Some uploaded, None) /\
  exists data,
    last (calls (wikiDataClient c'))
    = Some (CallCreateArticle (Article.ScienceSourceArticleTitle article) data
              (inl (Article.PageID uploaded))).
Proof.
  intros Hscan Hutf8 Hints Hupload Hpage Hsave Hopen Hread.
  unfold UploadPaper, CreateArticle in Hupload.
  destruct (ioutil_ReadFile htmlFileName fs) as [data|e]; [|discriminate].
  destruct (create_article _ data _) as [[page_id|e] s]; [|discriminate].
  injection Hupload as <- <-.
  assert (Hp : Article.PageID (set_PageID page_id article) = page_id) by (by destruct article).
  rewrite Hp in *. split.
  - rewrite (Load_after_Save no_bytes json_text json_scan _ saved filename fs fs' Hscan
               (ints_set_PageID page_id article Hpage Hints) Hsave Hopen Hread).
    rewrite coerce_Article_valid; [reflexivity|]. by rewrite utf8_set_PageID.
  - exists data. simpl. apply last_snoc.
Qed.

End UploadThenSave.

(** ** The further properties at concrete inputs *)

Lemma resolution_keeps_other_entries_witness :
  (forall k, is_Some (PropertyMap stale_client !! k) ->
     is_Some (PropertyMap
                (GetPropertyAndItemConfigurationFromServer map_keys
                   (times_out_on "anchors") resolves_all stale_client).2 !! k)) /\
  (forall k, is_Some (ItemMap stale_client !! k) ->
     is_Some (ItemMap
                (GetPropertyAndItemConfigurationFromServer map_keys
                   (times_out_on "anchors") resolves_all stale_client).2 !! k)) /\
  (forall k, k ∉ getValuesForTags map_keys "property" ->
     PropertyMap
       (GetPropertyAndItemConfigurationFromServer map_keys
          (times_out_on "anchors") resolves_all stale_client).2 !! k
     = PropertyMap stale_client !! k) /\
  (forall k, k ∉ getValuesForTags map_keys "item" ->
     ItemMap
       (GetPropertyAndItemConfigurationFromServer map_keys
          (times_out_on "anchors") resolves_all stale_client).2 !! k
     = ItemMap stale_client !! k).
Proof.
  apply (resolution_keeps_other_entries map_keys (times_out_on "anchors") resolves_all
           stale_client _ (Some "timeout")).
  vm_compute. reflexivity.
Defined.

Lemma new_client_maps_hold_exactly_the_labels_witness :
  (forall k, is_Some (PropertyMap resolved_run.2 !! k)
             <-> k ∈ getValuesForTags map_keys "property") /\
  (forall k, is_Some (ItemMap resolved_run.2 !! k)
             <-> k ∈ getValuesForTags map_keys "item").
Proof.
  apply (new_client_maps_hold_exactly_the_labels map_keys resolves_all resolves_all
           {| server := tt; calls := [] |} resolved_run.2).
  vm_compute. reflexivity.
Defined.

Lemma success_makes_one_lookup_per_label_witness :
  exists new,
    calls (wikiDataClient resolved_run.2) = calls (wikiDataClient new_client) ++ new /\
    call_target <$> new = Some <$> lookups_in_order map_keys /\
    succeeded new /\
    NoDup (call_target <$> new) /\
    length new = (length (getValuesForTags map_keys "property")
                  + length (getValuesForTags map_keys "item"))%nat.
Proof.
  apply (success_makes_one_lookup_per_label map_keys resolves_all resolves_all
           (fun m => reflexivity (map_keys m)) new_client resolved_run.2).
  vm_compute. reflexivity.
Defined.

Lemma lookups_have_nonempty_labels_witness :
  exists role label,
    call_target anchors_call = Some (role, label) /\
    label <> "" /\
    label ∈ getValuesForTags map_keys
              match role with PropertyRole => "property" | ItemRole => "item" end.
Proof.
  apply (lookups_have_nonempty_labels map_keys (times_out_on "anchors") resolves_all
           (fun m => reflexivity (map_keys m)) new_client anchors_run.2 anchors_run.1
           (calls (wikiDataClient anchors_run.2)) anchors_call).
  - vm_compute. reflexivity.
  - vm_compute. reflexivity.
  - apply list_elem_of_In. vm_compute. tauto.
Defined.


Lemma loaded_article_is_valid_utf8_witness :
  LoadScienceSourceArticle document_scan "article.json"
    (Save JNull document_text mangled_article "article.json" empty_disk).2
  = (Some (coerce_Article mangled_article), None) /\
  utf8_Article (coerce_Article mangled_article) = true /\
  ints_Article (coerce_Article mangled_article) = true /\
  coerce_Article (coerce_Article mangled_article) = coerce_Article mangled_article.
Proof.
  apply (loaded_article_is_valid_utf8 JNull document_text document_scan mangled_article
           mangled_article "article.json" empty_disk);
    vm_compute; reflexivity.
Defined.

Lemma uploaded_page_id_survives_save_witness :
  LoadScienceSourceArticle document_scan "article.json"
    (Save JNull document_text (set_PageID 4711 example_article) "article.json"
       paper_disk).2
  = (Some (set_PageID 4711 example_article), None) /\
  exists data,
    last (calls (wikiDataClient
                   (UploadPaper creates_page new_client example_article "paper.html"
                      paper_disk).1.2))
    = Some (CallCreateArticle (Article.ScienceSourceArticleTitle example_article) data
              (inl (Article.PageID (set_PageID 4711 example_article)))).
Proof.
  apply (uploaded_page_id_survives_save JNull document_text document_scan creates_page
           new_client _ example_article (set_PageID 4711 example_article)
           (set_PageID 4711 example_article) "paper.html" "article.json" paper_disk);
    vm_compute; reflexivity.
Defined.
